(** * The UE packet destination monitor (scripts/ue_packet_monitor.py)

    A shallow embedding of the packet-tap pipeline: the permission probe,
    the per-line decode of tshark's pipe-separated records, the two line
    layouts, the counting display loop and the control flow of [main].

    Python [str] values are Stdlib strings.  Every field tshark prints
    with [-n -T fields] is ASCII, so one [ascii] stands for one character;
    the only non-ASCII literal of the script, the warning sign of the
    final notice, is written with its UTF-8 bytes.  The external world
    (the subprocess outcomes, the lines of the capture's standard output,
    the interface list) is an explicit argument of each function. *)

From stdpp Require Import base decidable option list strings pretty gmap sorting.
From Stdlib Require Import ZArith Lia Ascii.

Local Open Scope string_scope.
Local Open Scope list_scope.
Local Open Scope nat_scope.

(** ** Python string primitives *)

Module PyStr.

(** Truth value of a [str]: [if s:] holds for every non-empty string. *)
Definition truthy (s : string) : bool :=
  match s with
  | EmptyString => false
  | String _ _ => true
  end.

(** [str.isspace] on one ASCII character: TAB, LF, VT, FF, CR, the four
    separators FS, GS, RS, US, and the space. *)
Definition is_space (c : ascii) : bool :=
  let n := nat_of_ascii c in
  ((9 <=? n) && (n <=? 13)) || ((28 <=? n) && (n <=? 32)).

Fixpoint lstrip (s : string) : string :=
  match s with
  | EmptyString => EmptyString
  | String c s' => if is_space c then lstrip s' else s
  end.

Fixpoint rstrip (s : string) : string :=
  match s with
  | EmptyString => EmptyString
  | String c s' =>
      match rstrip s' with
      | EmptyString => if is_space c then EmptyString else String c EmptyString
      | r => String c r
      end
  end.

(** [s.strip()] *)
Definition strip (s : string) : string := rstrip (lstrip s).

(** [s.split(sep)] for a one-character separator: never an empty list. *)
Fixpoint split (sep : ascii) (s : string) : list string :=
  match s with
  | EmptyString => [EmptyString]
  | String c s' =>
      if Ascii.eqb c sep then EmptyString :: split sep s'
      else match split sep s' with
           | h :: t => String c h :: t
           | [] => [String c EmptyString]
           end
  end.

(** [s.lower()] on ASCII letters. *)
Definition lower_char (c : ascii) : ascii :=
  let n := nat_of_ascii c in
  if (65 <=? n) && (n <=? 90) then ascii_of_nat (n + 32) else c.

Fixpoint lower (s : string) : string :=
  match s with
  | EmptyString => EmptyString
  | String c s' => String (lower_char c) (lower s')
  end.

(** [needle in hay] *)
Fixpoint contains (needle hay : string) : bool :=
  String.prefix needle hay ||
  match hay with
  | EmptyString => false
  | String _ hay' => contains needle hay'
  end.

(** [c * n] *)
Fixpoint repeat (c : ascii) (n : nat) : string :=
  match n with
  | O => EmptyString
  | S n' => String c (repeat c n')
  end.

(** Format specs [{s:<w}] and [{s:>w}]: pad with spaces up to width [w],
    never truncate. *)
Definition ljust (w : nat) (s : string) : string :=
  s +:+ repeat " "%char (w - String.length s).

Definition rjust (w : nat) (s : string) : string :=
  repeat " "%char (w - String.length s) +:+ s.

(** [sep.join(l)] *)
Fixpoint join (sep : string) (l : list string) : string :=
  match l with
  | [] => EmptyString
  | [x] => x
  | x :: rest => x +:+ sep +:+ join sep rest
  end.

(** Number of occurrences of a character. *)
Fixpoint count_char (c : ascii) (s : string) : nat :=
  match s with
  | EmptyString => 0
  | String d s' => (if Ascii.eqb d c then 1 else 0) + count_char c s'
  end.

End PyStr.

Import PyStr.

(** ** Formatting and protocol names *)

(** [format_simple_line]:
    [f"{count:>6}  {src_ip:<15} ---> {dst_ip:<15}  [{protocol}]"] *)
Definition format_simple_line (src_ip dst_ip protocol : string) (count : nat) : string :=
  rjust 6 (pretty count) +:+ "  " +:+ ljust 15 src_ip +:+ " ---> " +:+
  ljust 15 dst_ip +:+ "  [" +:+ protocol +:+ "]".

(** [f"{ip}:{port}" if port else ip], the expression of both [src_part]
    and [dst_part]. *)
Definition endpoint (ip port : string) : string :=
  if truthy port then ip +:+ ":" +:+ port else ip.

(** [format_5tuple_line] *)
Definition format_5tuple_line
    (src_ip src_port dst_ip dst_port protocol : string) (count : nat) : string :=
  let src_part := endpoint src_ip src_port in
  let dst_part := endpoint dst_ip dst_port in
  rjust 6 (pretty count) +:+ "  " +:+ ljust 22 src_part +:+ " ---> " +:+
  ljust 22 dst_part +:+ "  [" +:+ protocol +:+ "]".

(** The dictionary literal of [map_protocol]. *)
Definition protocol_map : gmap string string :=
  <["1" := "ICMP"]> (<["6" := "TCP"]> (<["17" := "UDP"]> (<["58" := "ICMPv6"]> ∅))).

(** [protocol_map.get(proto_num, proto_num if proto_num else 'IP')] *)
Definition map_protocol (proto_num : string) : string :=
  default (if truthy proto_num then proto_num else "IP") (protocol_map !! proto_num).


(** ** Subprocesses and observable events *)

(** What [subprocess.run(cmd, capture_output=True, text=True, timeout=t)]
    can do: return a completed process, or raise. *)
Inductive run_outcome :=
  | Completed (returncode : Z) (stdout stderr : string)
  | FileNotFoundError
  | TimeoutExpired
  | OtherException (msg : string).

(** Exceptions that reach the handlers of [main]. *)
Inductive exn :=
  | PermissionError (msg : string)
  | Exception (msg : string).

(** What [subprocess.Popen(cmd, stdout=PIPE, text=True)] can do: raise, or
    start a process whose standard output is read line by line until it
    ends. *)
Inductive launch :=
  | Stream (lines : list string)
  | Raises (e : exn).

(** The observable actions of the script, in order: a [print], the prompt of
    [input], the help text of the argument parser, and every attempt to
    start tshark. *)
Inductive event :=
  | Print (s : string)
  | Prompt (s : string)
  | PrintHelp
  | Spawn (cmd : list string).

Definition nl : string := String "010"%char EmptyString.

(** ** The permission probe *)

Definition probe_cmd (interface : string) : list string :=
  ["tshark"; "-i"; interface; "-a"; "duration:1"; "-c"; "1"; "-n";
   "-T"; "fields"; "-e"; "ip.src"].

(** ['permission' in stderr or "you don't have permission" in stderr] *)
Definition mentions_permission (stderr : string) : bool :=
  contains "permission" stderr || contains "you don't have permission" stderr.

(** [probe_capture_permissions], on the outcome of its one subprocess. *)
Definition probe_classify (result : run_outcome) : bool * string :=
  match result with
  | Completed returncode _ result_stderr =>
      let stderr := lower result_stderr in
      if mentions_permission stderr
      then (false, strip result_stderr)
      else if negb (returncode =? 0)%Z && truthy stderr
      then (false, strip result_stderr)
      else (true, "")
  | FileNotFoundError => (false, "tshark not found")
  | TimeoutExpired => (true, "")
  | OtherException e => (false, e)
  end.

Definition probe_capture_permissions
    (run : list string -> run_outcome) (interface : string) : bool * string :=
  probe_classify (run (probe_cmd interface)).

(** [check_tshark] *)
Definition check_tshark (run : list string -> run_outcome) : bool :=
  match run ["tshark"; "--version"] with
  | Completed _ _ _ => true
  | _ => false
  end.

(** ** The display loop *)

(** [packet_count] and what the loop has printed so far. *)
Record session := { packet_count : nat; printed : list string }.

Definition session0 : session := {| packet_count := 0; printed := [] |}.

(** [parts[8] if len(parts) > 8 and parts[8] else (parts[9] if len(parts) > 9 else '')],
    with [i] the index of the IPv4 protocol field. *)
Definition proto_num_at (i : nat) (parts : list string) : string :=
  if (i <? length parts) && truthy (parts !!! i) then parts !!! i
  else if S i <? length parts then parts !!! (S i) else "".

Definition no_packets_notice : string := "⚠ No packets were captured".

Definition count_args (count_limit : option Z) : list string :=
  match count_limit with
  | Some n => if (n =? 0)%Z then [] else ["-c"; pretty n]
  | None => []
  end.

Definition debug_lines (debug : bool) (display_filter : string) (tshark_cmd : list string)
    : list event :=
  if debug
  then [Print ("Debug: Display filter = " +:+ display_filter);
        Print ("Debug: Command = " +:+ join " " tshark_cmd)]
  else [].

Module Simple.

(** The local variables of one iteration. *)
Record fields := { src : string; dst : string; proto_num : string; protocol : string }.

(** From the raw line to the resolved variables; [None] is [continue]. *)
Definition resolve (line : string) : option fields :=
  let line := strip line in
  if negb (truthy line) then None else
  let parts := split "|" line in
  if length parts <? 4 then None else
  let src := if truthy (parts !!! 0) then parts !!! 0 else parts !!! 1 in
  let dst := if truthy (parts !!! 2) then parts !!! 2 else parts !!! 3 in
  let proto_num := proto_num_at 4 parts in
  let protocol := map_protocol proto_num in
  Some {| src := src; dst := dst; proto_num := proto_num; protocol := protocol |}.

(** [if src and dst:] *)
Definition decode (line : string) : option fields :=
  match resolve line with
  | Some f => if truthy (src f) && truthy (dst f) then Some f else None
  | None => None
  end.

Definition render (f : fields) (count : nat) : string :=
  format_simple_line (src f) (dst f) (protocol f) count.

(** One iteration of [for line in process.stdout]. *)
Definition step (st : session) (line : string) : session :=
  match decode line with
  | Some f =>
      let packet_count := packet_count st + 1 in
      {| packet_count := packet_count;
         printed := printed st ++ [render f packet_count] |}
  | None => st
  end.

Definition loop (lines : list string) : session := foldl step session0 lines.

Definition header (src_ip interface : string) : list event :=
  [Print (nl +:+ repeat "=" 80);
   Print ("Monitoring packets from: " +:+ src_ip);
   Print "Display mode: Simple (IP -> IP)";
   Print ("Interface: " +:+ interface);
   Print "Press Ctrl-C to stop";
   Print (repeat "=" 80);
   Print (rjust 6 "#" +:+ "  " +:+ ljust 15 "Source IP" +:+ "      " +:+
          ljust 15 "Destination IP" +:+ "  " +:+ "Protocol");
   Print (repeat "-" 80)].

Definition tshark_cmd (src_ip interface : string) (count_limit : option Z) : list string :=
  ["tshark"; "-i"; interface; "-Y"; "ip.src == " +:+ src_ip; "-n"; "-T"; "fields";
   "-e"; "ip.src"; "-e"; "ipv6.src"; "-e"; "ip.dst"; "-e"; "ipv6.dst";
   "-e"; "ip.proto"; "-e"; "ipv6.nxt"; "-E"; "separator=|"; "-E"; "occurrence=f"]
  ++ count_args count_limit.

Definition notice : list event :=
  [Print (nl +:+ repeat "=" 80); Print no_packets_notice; Print (repeat "=" 80)].

(** [run_simple_monitor] up to the end of the stream (no interrupt). *)
Definition run_simple_monitor (popen : list string -> launch)
    (src_ip interface : string) (count_limit : option Z) (debug : bool)
    : list event * option exn :=
  let display_filter := "ip.src == " +:+ src_ip in
  let cmd := tshark_cmd src_ip interface count_limit in
  let before := header src_ip interface ++ debug_lines debug display_filter cmd
                ++ [Spawn (["stdbuf"; "-oL"] ++ cmd)] in
  match popen (["stdbuf"; "-oL"] ++ cmd) with
  | Raises e => (before, Some e)
  | Stream lines =>
      let st := loop lines in
      (before ++ (Print <$> printed st)
         ++ (if packet_count st =? 0 then notice else []), None)
  end.

End Simple.

Module FiveTuple.

(** The local variables of one iteration. *)
Record fields := {
  src : string; src_port : string; dst : string; dst_port : string;
  proto_num : string; protocol : string }.

(** From the raw line to the resolved variables; [None] is [continue]. *)
Definition resolve (line : string) : option fields :=
  let line := strip line in
  if negb (truthy line) then None else
  let parts := split "|" line in
  if length parts <? 8 then None else
  let src := if truthy (parts !!! 0) then parts !!! 0 else parts !!! 1 in
  let src_port := if truthy (parts !!! 2) then parts !!! 2 else parts !!! 3 in
  let dst := if truthy (parts !!! 4) then parts !!! 4 else parts !!! 5 in
  let dst_port := if truthy (parts !!! 6) then parts !!! 6 else parts !!! 7 in
  let proto_num := proto_num_at 8 parts in
  let protocol := map_protocol proto_num in
  Some {| src := src; src_port := src_port; dst := dst; dst_port := dst_port;
          proto_num := proto_num; protocol := protocol |}.

(** [if src and dst:] *)
Definition decode (line : string) : option fields :=
  match resolve line with
  | Some f => if truthy (src f) && truthy (dst f) then Some f else None
  | None => None
  end.

Definition render (f : fields) (count : nat) : string :=
  format_5tuple_line (src f) (src_port f) (dst f) (dst_port f) (protocol f) count.

(** One iteration of [for line in process.stdout]. *)
Definition step (st : session) (line : string) : session :=
  match decode line with
  | Some f =>
      let packet_count := packet_count st + 1 in
      {| packet_count := packet_count;
         printed := printed st ++ [render f packet_count] |}
  | None => st
  end.

Definition loop (lines : list string) : session := foldl step session0 lines.

Definition header (src_ip interface : string) : list event :=
  [Print (nl +:+ repeat "=" 100);
   Print ("Monitoring packets from: " +:+ src_ip);
   Print "Display mode: 5-tuple (IP:Port -> IP:Port, Protocol)";
   Print ("Interface: " +:+ interface);
   Print "Press Ctrl-C to stop";
   Print (repeat "=" 100);
   Print (rjust 6 "#" +:+ "  " +:+ ljust 22 "Source" +:+ "      " +:+
          ljust 22 "Destination" +:+ "  " +:+ "Protocol");
   Print (repeat "-" 100)].

Definition tshark_cmd (src_ip interface : string) (count_limit : option Z) : list string :=
  ["tshark"; "-i"; interface; "-Y"; "ip.src == " +:+ src_ip; "-n"; "-T"; "fields";
   "-e"; "ip.src"; "-e"; "ipv6.src"; "-e"; "tcp.srcport"; "-e"; "udp.srcport";
   "-e"; "ip.dst"; "-e"; "ipv6.dst"; "-e"; "tcp.dstport"; "-e"; "udp.dstport";
   "-e"; "ip.proto"; "-e"; "ipv6.nxt"; "-E"; "separator=|"; "-E"; "occurrence=f"]
  ++ count_args count_limit.

Definition notice : list event :=
  [Print (nl +:+ repeat "=" 100); Print no_packets_notice; Print (repeat "=" 100)].

(** [run_5tuple_monitor] up to the end of the stream (no interrupt). *)
Definition run_5tuple_monitor (popen : list string -> launch)
    (src_ip interface : string) (count_limit : option Z) (debug : bool)
    : list event * option exn :=
  let display_filter := "ip.src == " +:+ src_ip in
  let cmd := tshark_cmd src_ip interface count_limit in
  let before := header src_ip interface ++ debug_lines debug display_filter cmd
                ++ [Spawn (["stdbuf"; "-oL"] ++ cmd)] in
  match popen (["stdbuf"; "-oL"] ++ cmd) with
  | Raises e => (before, Some e)
  | Stream lines =>
      let st := loop lines in
      (before ++ (Print <$> printed st)
         ++ (if packet_count st =? 0 then notice else []), None)
  end.

End FiveTuple.

(** ** Target selection and [main] *)

(** One answer at the prompt of [select_ue_interactive], as the loop
    tells them apart: [q], a string [int] accepts, any other string, and
    end of input or an interrupt. *)
Inductive user_input :=
  | Quit
  | Number (idx : Z)
  | NotANumber
  | EndOfInput.

(** The host as [main] sees it. *)
Record world := {
  run : list string -> run_outcome;      (* subprocess.run *)
  popen : list string -> launch;         (* subprocess.Popen and its output *)
  active_ues : list (string * string);   (* list_active_ues() *)
  inputs : list user_input;              (* answers typed at the prompt *)
  euid : Z;                              (* os.geteuid() *)
  argv : list string                     (* sys.argv *)
}.

(** The parsed command line. *)
Record args := {
  src_ip : option string;
  select : bool;
  five_tuple : bool;
  simple : bool;
  interface : string;
  count : option Z;
  debug : bool
}.

Definition select_prompt : string := nl +:+ "Select UE number (or 'q' to quit): ".

(** The [while True] loop of [select_ue_interactive]; running out of
    answers is end of input. *)
Fixpoint select_loop (ue_list : list (string * string)) (answers : list user_input)
    : list event * (Z + string * string) :=
  match answers with
  | [] => ([Prompt select_prompt; Print (nl +:+ "Cancelled by user")], inl 0%Z)
  | Quit :: _ => ([Prompt select_prompt], inl 0%Z)
  | EndOfInput :: _ => ([Prompt select_prompt; Print (nl +:+ "Cancelled by user")], inl 0%Z)
  | Number idx :: rest =>
      if (1 <=? idx)%Z && (idx <=? Z.of_nat (length ue_list))%Z then
        (* [ue_list[idx - 1]] is in range here *)
        match ue_list !! Z.to_nat (idx - 1) with
        | Some ue => ([Prompt select_prompt], inr ue)
        | None => ([Prompt select_prompt], inl 1%Z)
        end
      else
        let '(out, r) := select_loop ue_list rest in
        (Prompt select_prompt
           :: Print ("Please enter a number between 1 and " +:+ pretty (length ue_list))
           :: out, r)
  | NotANumber :: rest =>
      let '(out, r) := select_loop ue_list rest in
      (Prompt select_prompt :: Print "Invalid input. Please enter a number." :: out, r)
  end.

Definition menu_line (idx : nat) (ue : string * string) : event :=
  Print ("  " +:+ pretty (idx + 1) +:+ ". " +:+ ljust 20 ue.1 +:+ " IP: " +:+ ue.2).

(** [select_ue_interactive]: the exit status, or the chosen (interface, IP). *)
Definition select_ue_interactive (w : world) : list event * (Z + string * string) :=
  let ue_list := active_ues w in
  match ue_list with
  | [] => ([Print "No active UE interfaces with IP addresses found.";
            Print "Make sure PacketRusher UEs are running with assigned IPs."], inl 1%Z)
  | _ =>
      let '(out, r) := select_loop ue_list (inputs w) in
      ([Print (nl +:+ repeat "=" 60); Print "Active UE Interfaces:"; Print (repeat "-" 60)]
         ++ imap menu_line ue_list ++ [Print (repeat "=" 60)] ++ out, r)
  end.

(** The [for iface, ip in ue_list] search of [main]. *)
Fixpoint match_iface (ue_list : list (string * string)) (src_ip : string) : option string :=
  match ue_list with
  | [] => None
  | (iface, ip) :: rest => if String.eqb ip src_ip then Some iface else match_iface rest src_ip
  end.

(** The part of [main] under [# Run monitoring]. *)
Definition run_monitoring (w : world) (a : args) (src_ip interface : string)
    : list event * Z :=
  let warn :=
    if negb (euid w =? 0)%Z
    then [Print "Warning: script is not running as root — packet capture may fail. Try running with sudo."]
    else [] in
  let '(ok, msg) := probe_capture_permissions (run w) interface in
  let probe := [Spawn (probe_cmd interface)] in
  if negb ok then
    (warn ++ probe ++ [Print (nl +:+ "Error: Unable to open capture interface.")]
       ++ (if truthy msg then [Print ("tshark error: " +:+ msg)] else [])
       ++ [Print "Try running with sudo or specify a different --interface that exists on this host."],
     1%Z)
  else
    let '(out, raised) :=
      if five_tuple a
      then FiveTuple.run_5tuple_monitor (popen w) src_ip interface (count a) (debug a)
      else Simple.run_simple_monitor (popen w) src_ip interface (count a) (debug a) in
    match raised with
    | None => (warn ++ probe ++ out, 0%Z)
    | Some (PermissionError _) =>
        (warn ++ probe ++ out
           ++ [Print (nl +:+ "Error: Permission denied. Try running with sudo:");
               Print ("  sudo " +:+ join " " (argv w))], 1%Z)
    | Some (Exception e) =>
        (warn ++ probe ++ out ++ [Print (nl +:+ "Error: " +:+ e)], 1%Z)
    end.

(** [main]: everything the script does, and its exit status. *)
Definition main (w : world) (a : args) : list event * Z :=
  let version := [Spawn ["tshark"; "--version"]] in
  if negb (check_tshark (run w)) then
    (version ++ [Print "Error: tshark is not installed or not in PATH";
                 Print "Install with: sudo apt-get install tshark"], 1%Z)
  else if select a then
    match select_ue_interactive w with
    | (out, inl status) => (version ++ out, status)
    | (out, inr (iface, src_ip)) =>
        let chosen := [Print (nl +:+ "Selected UE: " +:+ iface);
                       Print ("Selected UE IP: " +:+ src_ip)] in
        let interface := if negb (truthy (interface a)) then iface else interface a in
        let '(rest, status) := run_monitoring w a src_ip interface in
        (version ++ out ++ chosen ++ rest, status)
    end
  else
    match src_ip a with
    | Some (String c s as src_ip) =>
        if negb (truthy (interface a)) then
          match match_iface (active_ues w) src_ip with
          | Some (String _ _ as matched_iface) =>
              let interface := matched_iface in
              let dbg :=
                if debug a
                then [Print ("Auto-detected interface '" +:+ interface +:+
                             "' for src-ip " +:+ src_ip)]
                else [] in
              let '(rest, status) := run_monitoring w a src_ip interface in
              (version ++ dbg ++ rest, status)
          | _ =>
              let interface := "any" in
              let warn :=
                [Print ("Warning: no local val* interface has IP " +:+ src_ip +:+
                        "; using capture interface 'any'.");
                 Print "If this IP belongs to a UE, run with --select to pick the correct interface or pass --interface <iface>."] in
              let '(rest, status) := run_monitoring w a src_ip interface in
              (version ++ warn ++ rest, status)
          end
        else
          let '(rest, status) := run_monitoring w a src_ip (interface a) in
          (version ++ rest, status)
    | _ =>
        (version ++ [PrintHelp;
                     Print (nl +:+ "Error: Either --src-ip or --select must be specified")],
         1%Z)
    end.

(** ** Observations used in the statements *)

(** [v] is the first of [a], [b] that is not empty, and is empty only when
    both are. *)
Definition first_nonempty (a b v : string) : Prop :=
  (a ≠ "" -> v = a) /\ (a = "" -> v = b) /\ (v = "" <-> a = "" /\ b = "").

Definition is_digit (c : ascii) : bool :=
  let n := nat_of_ascii c in (48 <=? n) && (n <=? 57).

Definition starts_with_digit (s : string) : bool :=
  match s with
  | EmptyString => false
  | String c _ => is_digit c
  end.

(** A printed line is numbered when its first visible character is a
    digit: the counter column of a packet line. *)
Definition numbered (s : string) : bool := starts_with_digit (lstrip s).

(** An event that prints a numbered line, and one that prints the notice. *)
Definition prints_numbered (e : event) : bool :=
  match e with
  | Print s => numbered s
  | _ => false
  end.

Definition prints_notice (e : event) : bool :=
  match e with
  | Print s => String.eqb s no_packets_notice
  | _ => false
  end.

(** The numbered lines of an output, in order. *)
Definition numbered_line (e : event) : option string :=
  match e with
  | Print s => if numbered s then Some s else None
  | _ => None
  end.

Definition numbered_lines (out : list event) : list string := omap numbered_line out.

(** An event that starts the live capture: [Popen(['stdbuf', '-oL'] + tshark_cmd)]. *)
Definition starts_capture (e : event) : bool :=
  match e with
  | Spawn (first :: _) => String.eqb first "stdbuf"
  | _ => false
  end.

(** The iteration both loops share, for any decoder and renderer. *)
Definition count_step {F : Type} (decode : string -> option F)
    (render : F -> nat -> string) (st : session) (line : string) : session :=
  match decode line with
  | Some f =>
      {| packet_count := packet_count st + 1;
         printed := printed st ++ [render f (packet_count st + 1)] |}
  | None => st
  end.

(** A host with one UE interface, run by root, where tshark starts and
    sees no traffic, and the command line [--src-ip 10.0.0.9]. *)
Definition quiet_host : world :=
  {| run := fun _ => Completed 0 "" "";
     popen := fun _ => Stream [];
     active_ues := [("val0000000001", "10.61.0.1")];
     inputs := [];
     euid := 0;
     argv := ["./scripts/ue_packet_monitor.py"; "--src-ip"; "10.0.0.9"] |}.

Definition src_ip_only : args :=
  {| src_ip := Some "10.0.0.9"; select := false; five_tuple := false; simple := false;
     interface := ""; count := None; debug := false |}.

(** ** Interface discovery *)

(** The longest prefix of [s] whose characters satisfy [p], and the rest:
    a greedy [x*]. *)
Fixpoint span (p : ascii -> bool) (s : string) : string * string :=
  match s with
  | EmptyString => (EmptyString, EmptyString)
  | String c s' =>
      if p c then (String c (span p s').1, (span p s').2) else (EmptyString, s)
  end.

(** [s] without the prefix [pre], if it starts with it. *)
Fixpoint drop_prefix (pre s : string) : option string :=
  match pre with
  | EmptyString => Some s
  | String c pre' =>
      match s with
      | EmptyString => None
      | String d s' => if Ascii.eqb c d then drop_prefix pre' s' else None
      end
  end.

(** [\d+] at the start of [s] (ASCII digits): the digits and the rest. *)
Definition digits1 (s : string) : option (string * string) :=
  match span is_digit s with
  | (EmptyString, _) => None
  | found => Some found
  end.

(** [\.] at the start of [s]: the rest. *)
Definition dot (s : string) : option string := drop_prefix "." s.

(** The pattern [inet\s+(\d+\.\d+\.\d+\.\d+)] matched at the start of [s]:
    group 1. No repetition of the pattern can give back a character to what
    follows it (white space before a digit, digits before a dot), so the
    greedy match is the only one. *)
Definition match_inet (s : string) : option string :=
  match drop_prefix "inet" s with
  | None => None
  | Some r =>
      match span is_space r with
      | (EmptyString, _) => None
      | (_, r) =>
          '(a, r) ← digits1 r; r ← dot r;
          '(b, r) ← digits1 r; r ← dot r;
          '(c, r) ← digits1 r; r ← dot r;
          '(d, _) ← digits1 r;
          Some (a +:+ "." +:+ b +:+ "." +:+ c +:+ "." +:+ d)
      end
  end.

(** [re.search(r'inet\s+(\d+\.\d+\.\d+\.\d+)', s)]: group 1 of the leftmost
    match. *)
Fixpoint search_inet (s : string) : option string :=
  match match_inet s with
  | Some ip => Some ip
  | None =>
      match s with
      | EmptyString => None
      | String _ s' => search_inet s'
      end
  end.

(** [get_interface_ip]: any exception gives [None]. *)
Definition get_interface_ip (run : list string -> run_outcome) (iface : string)
    : option string :=
  match run ["ip"; "-4"; "addr"; "show"; iface] with
  | Completed _ stdout _ => search_inet stdout
  | _ => None
  end.

(** [os.path.basename]: what follows the last slash. *)
Definition basename (path : string) : string := List.last (split "/" path) EmptyString.

(** [detect_val_interfaces], on what [glob.glob('/sys/class/net/val*')]
    returned; [sorted] on strings is the sort by code points. *)
Definition detect_val_interfaces (paths : list string) : list string :=
  merge_sort String.le (basename <$> paths).

(** [list_active_ues], on the detected interfaces. *)
Definition list_active_ues (run : list string -> run_outcome) (ifaces : list string)
    : list (string * string) :=
  omap (fun iface =>
          match get_interface_ip run iface with
          | Some ip => if truthy ip then Some (iface, ip) else None
          | None => None
          end) ifaces.

(** ** Further observations *)

(** The number a run of decimal digits spells, read after [acc]. *)
Fixpoint read_decimal (acc : N) (s : string) : N :=
  match s with
  | EmptyString => acc
  | String c s' => read_decimal (10 * acc + (N_of_ascii c - 48)) s'
  end.

(** The counter a printed line shows: the number spelled by the digits at
    its start, after the padding; none when the line does not start with a
    digit. *)
Definition counter_of (line : string) : option nat :=
  match span is_digit (lstrip line) with
  | (EmptyString, _) => None
  | (digits, _) => Some (N.to_nat (read_decimal 0 digits))
  end.

(** A string of digits only, and a non-empty one. *)
Fixpoint all_digits (s : string) : bool :=
  match s with
  | EmptyString => true
  | String c s' => is_digit c && all_digits s'
  end.

Definition digit_run (s : string) : Prop := s ≠ "" /\ all_digits s = true.

(** A string without white space. *)
Fixpoint no_space (s : string) : bool :=
  match s with
  | EmptyString => true
  | String c s' => negb (is_space c) && no_space s'
  end.

(** A field as tshark prints it: no separator and no white space in it. *)
Definition plain_field (s : string) : Prop :=
  count_char "|" s = 0 /\ no_space s = true.

(** A string made of white space only (the empty string included). *)
Fixpoint all_space (s : string) : bool :=
  match s with
  | EmptyString => true
  | String c s' => is_space c && all_space s'
  end.

(** The commands an output started, in order. *)
Definition spawned (e : event) : option (list string) :=
  match e with
  | Spawn cmd => Some cmd
  | _ => None
  end.

Definition spawns (out : list event) : list (list string) := omap spawned out.

(** An answer the selection loop turns down: not a number, or a number
    outside [1 .. len(ue_list)]. *)
Definition rejected (ue_list : list (string * string)) (answer : user_input) : bool :=
  match answer with
  | NotANumber => true
  | Number idx => negb ((1 <=? idx)%Z && (idx <=? Z.of_nat (length ue_list))%Z)
  | _ => false
  end.

(** What the loop prints for a rejected answer. *)
Definition complaint (ue_list : list (string * string)) (answer : user_input) : list event :=
  match answer with
  | NotANumber => [Prompt select_prompt; Print "Invalid input. Please enter a number."]
  | _ => [Prompt select_prompt;
          Print ("Please enter a number between 1 and " +:+ pretty (length ue_list))]
  end.

(** The command of the live capture, as [main] starts it. *)
Definition capture_cmd (a : args) (src_ip interface : string) : list string :=
  ["stdbuf"; "-oL"] ++
  (if five_tuple a then FiveTuple.tshark_cmd src_ip interface (count a)
   else Simple.tshark_cmd src_ip interface (count a)).

(** The first half of [main] after the tshark check, on its own: what it
    prints, and either the exit status or the source address and interface
    it settles on. *)
Definition target (w : world) (a : args) : list event * (Z + string * string) :=
  if select a then
    match select_ue_interactive w with
    | (out, inl status) => (out, inl status)
    | (out, inr (iface, src_ip)) =>
        (out ++ [Print (nl +:+ "Selected UE: " +:+ iface);
                 Print ("Selected UE IP: " +:+ src_ip)],
         inr (src_ip, if truthy (interface a) then interface a else iface))
    end
  else
    match src_ip a with
    | Some (String c s as src_ip) =>
        if truthy (interface a) then ([], inr (src_ip, interface a))
        else
          match match_iface (active_ues w) src_ip with
          | Some (String _ _ as matched_iface) =>
              (if debug a
               then [Print ("Auto-detected interface '" +:+ matched_iface +:+
                            "' for src-ip " +:+ src_ip)]
               else [],
               inr (src_ip, matched_iface))
          | _ =>
              ([Print ("Warning: no local val* interface has IP " +:+ src_ip +:+
                       "; using capture interface 'any'.");
                Print "If this IP belongs to a UE, run with --select to pick the correct interface or pass --interface <iface>."],
               inr (src_ip, "any"))
          end
    | _ =>
        ([PrintHelp;
          Print (nl +:+ "Error: Either --src-ip or --select must be specified")],
         inl 1%Z)
    end.


(** What [run_monitoring] starts for an interface: the probe, and the
    capture if the probe answers ok. *)
Definition monitoring_cmds (w : world) (a : args) (src_ip interface : string)
    : list (list string) :=
  probe_cmd interface
    :: (if (probe_capture_permissions (run w) interface).1
        then [capture_cmd a src_ip interface] else []).


(** * Properties *)

(** ** Facts about the string primitives *)

Section StringFacts.

Lemma truthy_true (s : string) : truthy s = true <-> s ≠ "".
Proof. destruct s; simpl; split; intros; congruence. Qed.

(** A split yields one field more than there are separators. *)
Lemma split_length (sep : ascii) (s : string) :
  length (split sep s) = S (count_char sep s).
Proof.
  induction s as [|c s IH]; simpl; [reflexivity|].
  destruct (Ascii.eqb c sep); simpl.
  - by rewrite IH.
  - destruct (split sep s); simpl in *; congruence.
Qed.

Lemma space_is_not (c d : ascii) :
  is_space c = true -> is_space d = false -> Ascii.eqb c d = false.
Proof.
  intros Hc Hd. destruct (Ascii.eqb_spec c d) as [->|]; congruence.
Qed.

Lemma count_char_lstrip (c : ascii) (s : string) :
  is_space c = false -> count_char c (lstrip s) = count_char c s.
Proof.
  intros Hc. induction s as [|d s IH]; simpl; [reflexivity|].
  destruct (is_space d) eqn:Hd; simpl; [|reflexivity].
  by rewrite (space_is_not d c Hd Hc), IH.
Qed.

Lemma count_char_rstrip (c : ascii) (s : string) :
  is_space c = false -> count_char c (rstrip s) = count_char c s.
Proof.
  intros Hc. induction s as [|d s IH]; simpl; [reflexivity|].
  destruct (rstrip s) as [|e r]; simpl in *.
  - rewrite <- IH. destruct (is_space d) eqn:Hd; simpl.
    + by rewrite (space_is_not d c Hd Hc).
    + reflexivity.
  - by rewrite IH.
Qed.

(** Stripping white space keeps every separator, hence every field. *)
Lemma split_strip_length (line : string) :
  length (split "|" (strip line)) = length (split "|" line).
Proof.
  rewrite !split_length. unfold strip.
  by rewrite count_char_rstrip, count_char_lstrip.
Qed.

Lemma append_assoc (a b c : string) : (a +:+ b) +:+ c = a +:+ (b +:+ c).
Proof.
  induction a as [|x a IH]; [reflexivity|].
  change (String x ((a +:+ b) +:+ c) = String x (a +:+ (b +:+ c))).
  by rewrite IH.
Qed.

End StringFacts.

(** ** Protocol names *)

Lemma protocol_map_other (s : string) :
  s ≠ "1" -> s ≠ "6" -> s ≠ "17" -> s ≠ "58" -> protocol_map !! s = None.
Proof.
  intros H1 H6 H17 H58. unfold protocol_map.
  rewrite !lookup_insert_ne by congruence. apply lookup_empty.
Qed.

(** C4. [map_protocol] is a total function on strings that sends "1" to
    "ICMP", "6" to "TCP", "17" to "UDP" and "58" to "ICMPv6", returns every
    other non-empty string unchanged, and sends the empty string to "IP". *)
Theorem map_protocol_table :
  map_protocol "1" = "ICMP" /\ map_protocol "6" = "TCP" /\
  map_protocol "17" = "UDP" /\ map_protocol "58" = "ICMPv6" /\
  (forall s : string,
      s ≠ "" -> s ≠ "1" -> s ≠ "6" -> s ≠ "17" -> s ≠ "58" -> map_protocol s = s) /\
  map_protocol "" = "IP".
Proof.
  repeat split; try (vm_compute; reflexivity).
  intros s Hne H1 H6 H17 H58. unfold map_protocol.
  rewrite protocol_map_other by assumption. simpl.
  apply truthy_true in Hne. by rewrite Hne.
Qed.

Lemma map_protocol_table_witness : map_protocol "99" = "99".
Proof.
  destruct map_protocol_table as (_ & _ & _ & _ & Hother & _).
  apply Hother; discriminate.
Defined.

(** ** Decoding one record *)

(** Indexing past the end of [parts] never happens in the script; in the
    model it reads as the empty string. *)
Lemma lookup_total_past_end (parts : list string) (i : nat) :
  length parts <= i -> parts !!! i = "".
Proof.
  intros Hi. rewrite list_lookup_total_alt.
  by rewrite (lookup_ge_None_2 parts i Hi).
Qed.

Lemma proto_num_at_eq (i : nat) (parts : list string) :
  proto_num_at i parts = if truthy (parts !!! i) then parts !!! i else parts !!! (S i).
Proof.
  unfold proto_num_at.
  destruct (Nat.ltb_spec i (length parts)) as [Hi|Hi]; simpl.
  - destruct (truthy (parts !!! i)); [reflexivity|].
    destruct (Nat.ltb_spec (S i) (length parts)) as [Hs|Hs]; [reflexivity|].
    by rewrite lookup_total_past_end.
  - rewrite (lookup_total_past_end parts i) by lia. simpl.
    destruct (Nat.ltb_spec (S i) (length parts)) as [Hs|Hs]; [lia|].
    by rewrite lookup_total_past_end by lia.
Qed.

Lemma first_nonempty_if (a b : string) :
  first_nonempty a b (if truthy a then a else b).
Proof.
  unfold first_nonempty. destruct a as [|c a]; simpl.
  - repeat split; try congruence. tauto.
  - repeat split; try congruence. intros [? _]. congruence.
Qed.

Lemma simple_resolve_inv (line : string) (f : Simple.fields) :
  Simple.resolve line = Some f ->
  let parts := split "|" (strip line) in
  4 <= length parts /\
  Simple.src f = (if truthy (parts !!! 0) then parts !!! 0 else parts !!! 1) /\
  Simple.dst f = (if truthy (parts !!! 2) then parts !!! 2 else parts !!! 3) /\
  Simple.proto_num f = proto_num_at 4 parts /\
  Simple.protocol f = map_protocol (Simple.proto_num f).
Proof.
  intros H parts. unfold Simple.resolve in H. fold parts in H.
  destruct (truthy (strip line)); simpl in H; [|discriminate].
  destruct (Nat.ltb_spec (length parts) 4) as [Hl|Hl]; [discriminate|].
  injection H as <-. simpl. repeat split; try reflexivity. exact Hl.
Qed.

Lemma tuple_resolve_inv (line : string) (f : FiveTuple.fields) :
  FiveTuple.resolve line = Some f ->
  let parts := split "|" (strip line) in
  8 <= length parts /\
  FiveTuple.src f = (if truthy (parts !!! 0) then parts !!! 0 else parts !!! 1) /\
  FiveTuple.src_port f = (if truthy (parts !!! 2) then parts !!! 2 else parts !!! 3) /\
  FiveTuple.dst f = (if truthy (parts !!! 4) then parts !!! 4 else parts !!! 5) /\
  FiveTuple.dst_port f = (if truthy (parts !!! 6) then parts !!! 6 else parts !!! 7) /\
  FiveTuple.proto_num f = proto_num_at 8 parts /\
  FiveTuple.protocol f = map_protocol (FiveTuple.proto_num f).
Proof.
  intros H parts. unfold FiveTuple.resolve in H. fold parts in H.
  destruct (truthy (strip line)); simpl in H; [|discriminate].
  destruct (Nat.ltb_spec (length parts) 8) as [Hl|Hl]; [discriminate|].
  injection H as <-. simpl. repeat split; try reflexivity. exact Hl.
Qed.

Lemma simple_short_resolve (line : string) :
  length (split "|" line) < 4 -> Simple.resolve line = None.
Proof.
  intros H. unfold Simple.resolve.
  destruct (truthy (strip line)); simpl; [|reflexivity].
  rewrite split_strip_length.
  by destruct (Nat.ltb_spec (length (split "|" line)) 4); [|lia].
Qed.

Lemma tuple_short_resolve (line : string) :
  length (split "|" line) < 8 -> FiveTuple.resolve line = None.
Proof.
  intros H. unfold FiveTuple.resolve.
  destruct (truthy (strip line)); simpl; [|reflexivity].
  rewrite split_strip_length.
  by destruct (Nat.ltb_spec (length (split "|" line)) 8); [|lia].
Qed.

Lemma simple_decode_resolve (line : string) (f : Simple.fields) :
  Simple.decode line = Some f <->
  Simple.resolve line = Some f /\ Simple.src f ≠ "" /\ Simple.dst f ≠ "".
Proof.
  unfold Simple.decode. rewrite <- !truthy_true.
  destruct (Simple.resolve line) as [g|]; [|split; [discriminate|intros [? _]; discriminate]].
  destruct (truthy (Simple.src g)) eqn:Hs, (truthy (Simple.dst g)) eqn:Hd; simpl;
    split; try discriminate; try (intros [[= <-] [? ?]]; congruence).
  intros [= <-]. auto.
Qed.

Lemma tuple_decode_resolve (line : string) (f : FiveTuple.fields) :
  FiveTuple.decode line = Some f <->
  FiveTuple.resolve line = Some f /\ FiveTuple.src f ≠ "" /\ FiveTuple.dst f ≠ "".
Proof.
  unfold FiveTuple.decode. rewrite <- !truthy_true.
  destruct (FiveTuple.resolve line) as [g|]; [|split; [discriminate|intros [? _]; discriminate]].
  destruct (truthy (FiveTuple.src g)) eqn:Hs, (truthy (FiveTuple.dst g)) eqn:Hd; simpl;
    split; try discriminate; try (intros [[= <-] [? ?]]; congruence).
  intros [= <-]. auto.
Qed.

(** C1, as amended. A raw line with fewer than 4 pipe-separated fields in
    simple mode, or fewer than 8 in 5-tuple mode, decodes to nothing: the
    iteration leaves the packet counter and the printed lines as they were. *)
Theorem short_record_is_skipped (line : string) (st : session) :
  (length (split "|" line) < 4 ->
     Simple.decode line = None /\ Simple.step st line = st) /\
  (length (split "|" line) < 8 ->
     FiveTuple.decode line = None /\ FiveTuple.step st line = st).
Proof.
  split; intros H.
  - assert (Hd : Simple.decode line = None).
    { unfold Simple.decode. by rewrite simple_short_resolve. }
    split; [exact Hd|]. unfold Simple.step. by rewrite Hd.
  - assert (Hd : FiveTuple.decode line = None).
    { unfold FiveTuple.decode. by rewrite tuple_short_resolve. }
    split; [exact Hd|]. unfold FiveTuple.step. by rewrite Hd.
Qed.

Lemma short_record_is_skipped_witness :
  (Simple.decode "10.0.0.1||10.0.0.2" = None /\
   Simple.step session0 "10.0.0.1||10.0.0.2" = session0) /\
  (FiveTuple.decode "10.0.0.1||443||10.0.0.2|" = None /\
   FiveTuple.step session0 "10.0.0.1||443||10.0.0.2|" = session0).
Proof.
  split.
  - apply (proj1 (short_record_is_skipped "10.0.0.1||10.0.0.2" session0)).
    vm_compute. lia.
  - apply (proj2 (short_record_is_skipped "10.0.0.1||443||10.0.0.2|" session0)).
    vm_compute. lia.
Defined.

(** C1, as stated, fails: a simple-mode line of 4 fields (fewer than 6) and
    a 5-tuple line of 8 fields (fewer than 10) are decoded, counted and
    printed, with the protocol shown as "IP". *)
Lemma short_record_counterexample :
  length (split "|" "10.0.0.1||10.0.0.2|") = 4 /\
  Simple.decode "10.0.0.1||10.0.0.2|"
    = Some {| Simple.src := "10.0.0.1"; Simple.dst := "10.0.0.2";
              Simple.proto_num := ""; Simple.protocol := "IP" |} /\
  Simple.loop ["10.0.0.1||10.0.0.2|"]
    = {| packet_count := 1;
         printed := ["     1  10.0.0.1        ---> 10.0.0.2         [IP]"] |} /\
  length (split "|" "10.0.0.1||443||10.0.0.2||80|") = 8 /\
  FiveTuple.decode "10.0.0.1||443||10.0.0.2||80|"
    = Some {| FiveTuple.src := "10.0.0.1"; FiveTuple.src_port := "443";
              FiveTuple.dst := "10.0.0.2"; FiveTuple.dst_port := "80";
              FiveTuple.proto_num := ""; FiveTuple.protocol := "IP" |} /\
  FiveTuple.loop ["10.0.0.1||443||10.0.0.2||80|"]
    = {| packet_count := 1;
         printed := ["     1  10.0.0.1:443           ---> 10.0.0.2:80             [IP]"] |}.
Proof. vm_compute. repeat split. Qed.

(** C3. In simple mode the record "10.0.0.1||10.0.0.2||6|" resolves to
    source 10.0.0.1, destination 10.0.0.2 and protocol TCP; a run whose
    stream is that one record (with or without its line end) prints one
    numbered line, equal to the line shown, and ends with the counter at 1. *)
Theorem scenario_a :
  Simple.decode "10.0.0.1||10.0.0.2||6|"
    = Some {| Simple.src := "10.0.0.1"; Simple.dst := "10.0.0.2";
              Simple.proto_num := "6"; Simple.protocol := "TCP" |} /\
  Simple.loop ["10.0.0.1||10.0.0.2||6|"]
    = {| packet_count := 1;
         printed := ["     1  10.0.0.1        ---> 10.0.0.2         [TCP]"] |} /\
  Simple.loop ["10.0.0.1||10.0.0.2||6|" +:+ nl]
    = {| packet_count := 1;
         printed := ["     1  10.0.0.1        ---> 10.0.0.2         [TCP]"] |} /\
  numbered_lines
    (Simple.run_simple_monitor (fun _ => Stream ["10.0.0.1||10.0.0.2||6|" +:+ nl])
       "10.0.0.1" "val0000000001" None false).1
    = ["     1  10.0.0.1        ---> 10.0.0.2         [TCP]"].
Proof. vm_compute. repeat split. Qed.

(** C5. Whenever a line has enough fields to be resolved, each logical
    value is the IPv4 field if that is non-empty and the IPv6 field
    otherwise, and it is empty only when both fields are empty (a protocol
    field missing from a short line counts as empty); an empty protocol
    value is shown as "IP". *)
Theorem ipv4_field_wins (line : string) :
  let parts := split "|" (strip line) in
  (forall f, Simple.resolve line = Some f ->
     first_nonempty (parts !!! 0) (parts !!! 1) (Simple.src f) /\
     first_nonempty (parts !!! 2) (parts !!! 3) (Simple.dst f) /\
     first_nonempty (parts !!! 4) (parts !!! 5) (Simple.proto_num f) /\
     Simple.protocol f = map_protocol (Simple.proto_num f) /\
     (Simple.proto_num f = "" -> Simple.protocol f = "IP")) /\
  (forall f, FiveTuple.resolve line = Some f ->
     first_nonempty (parts !!! 0) (parts !!! 1) (FiveTuple.src f) /\
     first_nonempty (parts !!! 4) (parts !!! 5) (FiveTuple.dst f) /\
     first_nonempty (parts !!! 8) (parts !!! 9) (FiveTuple.proto_num f) /\
     FiveTuple.protocol f = map_protocol (FiveTuple.proto_num f) /\
     (FiveTuple.proto_num f = "" -> FiveTuple.protocol f = "IP")).
Proof.
  intros parts. split; intros f Hf.
  - destruct (simple_resolve_inv line f Hf) as (_ & -> & -> & Hp & Hl).
    rewrite Hl, Hp, proto_num_at_eq. fold parts.
    do 3 (split; [apply first_nonempty_if|]).
    split; [reflexivity|]. by intros ->.
  - destruct (tuple_resolve_inv line f Hf) as (_ & -> & _ & -> & _ & Hp & Hl).
    rewrite Hl, Hp, proto_num_at_eq. fold parts.
    do 3 (split; [apply first_nonempty_if|]).
    split; [reflexivity|]. by intros ->.
Qed.

Lemma ipv4_field_wins_witness :
  (exists f, Simple.resolve "10.0.0.1|fe80::1|10.0.0.2|fe80::2|6|17" = Some f /\
             Simple.src f = "10.0.0.1" /\ Simple.dst f = "10.0.0.2" /\
             Simple.proto_num f = "6") /\
  (exists f, FiveTuple.resolve "|fe80::1||53||fe80::2||53||17" = Some f /\
             FiveTuple.src f = "fe80::1" /\ FiveTuple.dst f = "fe80::2" /\
             FiveTuple.proto_num f = "17").
Proof.
  split.
  - eexists. split; [vm_compute; reflexivity|].
    edestruct (proj1 (ipv4_field_wins "10.0.0.1|fe80::1|10.0.0.2|fe80::2|6|17"))
      as ((Hs & _) & (Hd & _) & (Hp & _) & _); [vm_compute; reflexivity|].
    split; [apply Hs; discriminate|].
    split; [apply Hd; discriminate|apply Hp; discriminate].
  - eexists. split; [vm_compute; reflexivity|].
    edestruct (proj2 (ipv4_field_wins "|fe80::1||53||fe80::2||53||17"))
      as ((_ & Hs & _) & (_ & Hd & _) & (_ & Hp & _) & _); [vm_compute; reflexivity|].
    split; [apply Hs; reflexivity|].
    split; [apply Hd; reflexivity|apply Hp; reflexivity].
Defined.

(** C7. A decoded tuple has a non-empty source and a non-empty destination
    address; a line whose resolved source or destination is empty is
    dropped: nothing is decoded, and the iteration changes neither the
    counter nor the printed lines. *)
Theorem decoded_addresses_nonempty (line : string) (st : session) :
  (forall f, Simple.decode line = Some f -> Simple.src f ≠ "" /\ Simple.dst f ≠ "") /\
  (forall f, Simple.resolve line = Some f ->
     Simple.src f = "" \/ Simple.dst f = "" ->
     Simple.decode line = None /\ Simple.step st line = st) /\
  (forall f, FiveTuple.decode line = Some f ->
     FiveTuple.src f ≠ "" /\ FiveTuple.dst f ≠ "") /\
  (forall f, FiveTuple.resolve line = Some f ->
     FiveTuple.src f = "" \/ FiveTuple.dst f = "" ->
     FiveTuple.decode line = None /\ FiveTuple.step st line = st).
Proof.
  repeat apply conj.
  - intros f Hf. by apply simple_decode_resolve in Hf as (_ & ? & ?).
  - intros f Hf Hempty.
    assert (Hd : Simple.decode line = None).
    { unfold Simple.decode. rewrite Hf.
      destruct Hempty as [-> | ->]; simpl; [reflexivity|].
      by rewrite andb_false_r. }
    split; [exact Hd|]. unfold Simple.step. by rewrite Hd.
  - intros f Hf. by apply tuple_decode_resolve in Hf as (_ & ? & ?).
  - intros f Hf Hempty.
    assert (Hd : FiveTuple.decode line = None).
    { unfold FiveTuple.decode. rewrite Hf.
      destruct Hempty as [-> | ->]; simpl; [reflexivity|].
      by rewrite andb_false_r. }
    split; [exact Hd|]. unfold FiveTuple.step. by rewrite Hd.
Qed.

Lemma decoded_addresses_nonempty_witness :
  (Simple.decode "10.0.0.1|||||" = None /\
   Simple.step session0 "10.0.0.1|||||" = session0) /\
  (FiveTuple.decode "|||||fe80::2||53||17" = None /\
   FiveTuple.step session0 "|||||fe80::2||53||17" = session0) /\
  (exists f, Simple.decode "10.0.0.1||10.0.0.2||1|" = Some f /\
             Simple.src f ≠ "" /\ Simple.dst f ≠ "").
Proof.
  pose proof (decoded_addresses_nonempty "10.0.0.1|||||" session0) as (_ & H1 & _).
  pose proof (decoded_addresses_nonempty "|||||fe80::2||53||17" session0) as (_ & _ & _ & H2).
  pose proof (decoded_addresses_nonempty "10.0.0.1||10.0.0.2||1|" session0) as (H3 & _).
  split; [|split].
  - eapply H1; [vm_compute; reflexivity|]. right. reflexivity.
  - eapply H2; [vm_compute; reflexivity|]. left. reflexivity.
  - eexists. split; [vm_compute; reflexivity|]. apply H3. vm_compute. reflexivity.
Defined.

(** C10. In 5-tuple mode each port is the TCP field if that is non-empty and
    the UDP field otherwise, and is empty only when both are; an endpoint
    whose port is empty is rendered as the bare address, and one with a port
    as address, colon, port. *)
Theorem tcp_port_wins (line : string) (f : FiveTuple.fields) :
  FiveTuple.resolve line = Some f ->
  let parts := split "|" (strip line) in
  first_nonempty (parts !!! 2) (parts !!! 3) (FiveTuple.src_port f) /\
  first_nonempty (parts !!! 6) (parts !!! 7) (FiveTuple.dst_port f) /\
  (forall count,
     FiveTuple.render f count
     = rjust 6 (pretty count) +:+ "  "
       +:+ ljust 22 (endpoint (FiveTuple.src f) (FiveTuple.src_port f)) +:+ " ---> "
       +:+ ljust 22 (endpoint (FiveTuple.dst f) (FiveTuple.dst_port f))
       +:+ "  [" +:+ FiveTuple.protocol f +:+ "]") /\
  (parts !!! 2 = "" -> parts !!! 3 = "" ->
     endpoint (FiveTuple.src f) (FiveTuple.src_port f) = FiveTuple.src f) /\
  (parts !!! 6 = "" -> parts !!! 7 = "" ->
     endpoint (FiveTuple.dst f) (FiveTuple.dst_port f) = FiveTuple.dst f) /\
  (FiveTuple.src_port f ≠ "" ->
     endpoint (FiveTuple.src f) (FiveTuple.src_port f)
     = FiveTuple.src f +:+ ":" +:+ FiveTuple.src_port f) /\
  (FiveTuple.dst_port f ≠ "" ->
     endpoint (FiveTuple.dst f) (FiveTuple.dst_port f)
     = FiveTuple.dst f +:+ ":" +:+ FiveTuple.dst_port f).
Proof.
  intros Hf parts.
  destruct (tuple_resolve_inv line f Hf) as (_ & _ & Hsp & _ & Hdp & _).
  fold parts in Hsp, Hdp.
  split; [rewrite Hsp; apply first_nonempty_if|].
  split; [rewrite Hdp; apply first_nonempty_if|].
  split; [reflexivity|].
  repeat apply conj.
  - intros H2 H3. rewrite Hsp, H2, H3. reflexivity.
  - intros H6 H7. rewrite Hdp, H6, H7. reflexivity.
  - intros Hne. unfold endpoint. apply truthy_true in Hne. by rewrite Hne.
  - intros Hne. unfold endpoint. apply truthy_true in Hne. by rewrite Hne.
Qed.

Lemma tcp_port_wins_witness :
  exists f, FiveTuple.resolve "10.0.0.1||443|5353|10.0.0.2||||6|" = Some f /\
            FiveTuple.src_port f = "443" /\
            endpoint (FiveTuple.dst f) (FiveTuple.dst_port f) = "10.0.0.2" /\
            FiveTuple.render f 1
            = "     1  10.0.0.1:443           ---> 10.0.0.2                [TCP]".
Proof.
  eexists. split; [vm_compute; reflexivity|].
  edestruct (tcp_port_wins "10.0.0.1||443|5353|10.0.0.2||||6|")
    as ((Hs & _) & _ & _ & _ & Hd & _); [vm_compute; reflexivity|].
  split; [apply Hs; discriminate|].
  split; [rewrite Hd by reflexivity; reflexivity|].
  vm_compute. reflexivity.
Defined.

(** ** Numbered lines *)

Lemma digit_not_space (c : ascii) : is_digit c = true -> is_space c = false.
Proof.
  unfold is_digit, is_space. generalize (nat_of_ascii c). intros n H.
  apply andb_true_iff in H as [H1 H2].
  apply Nat.leb_le in H1. apply Nat.leb_le in H2.
  apply orb_false_iff. split; apply andb_false_iff.
  - right. apply Nat.leb_gt. lia.
  - right. apply Nat.leb_gt. lia.
Qed.

Lemma pretty_N_char_digit (x : N) : is_digit (pretty_N_char x) = true.
Proof. unfold pretty_N_char. by repeat case_match. Qed.

Lemma pretty_N_go_keeps_digit (x : N) (s : string) :
  starts_with_digit s = true -> starts_with_digit (pretty_N_go x s) = true.
Proof.
  revert s. induction (N.lt_wf_0 x) as [x _ IH]; intros s Hs.
  assert (x = 0 ∨ 0 < x)%N as [->|Hpos] by lia.
  - by rewrite pretty_N_go_0.
  - rewrite pretty_N_go_step by done. apply IH.
    + by apply N.div_lt.
    + simpl. apply pretty_N_char_digit.
Qed.

Lemma pretty_nat_starts_with_digit (n : nat) :
  starts_with_digit (pretty n) = true.
Proof.
  unfold pretty, pretty_nat, pretty, pretty_N.
  case_decide as H0; [reflexivity|].
  rewrite pretty_N_go_step by lia.
  apply pretty_N_go_keeps_digit. simpl. apply pretty_N_char_digit.
Qed.

Lemma lstrip_spaces (k : nat) (s : string) :
  lstrip (repeat " " k +:+ s) = lstrip s.
Proof. induction k as [|k IH]; [reflexivity|exact IH]. Qed.

Lemma numbered_counter (w : nat) (p rest : string) :
  starts_with_digit p = true -> numbered (rjust w p +:+ rest) = true.
Proof.
  intros Hp. unfold numbered, rjust.
  rewrite append_assoc, lstrip_spaces.
  destruct p as [|d p]; [discriminate|].
  change (String d p +:+ rest) with (String d (p +:+ rest)).
  simpl in *. by rewrite (digit_not_space d Hp).
Qed.

Lemma simple_render_numbered (f : Simple.fields) (count : nat) :
  numbered (Simple.render f count) = true.
Proof. apply numbered_counter, pretty_nat_starts_with_digit. Qed.

Lemma tuple_render_numbered (f : FiveTuple.fields) (count : nat) :
  numbered (FiveTuple.render f count) = true.
Proof. apply numbered_counter, pretty_nat_starts_with_digit. Qed.

(** ** The counting loop, for either mode *)

Section Loop.

Context {F : Type} (decode : string -> option F) (render : F -> nat -> string).

Local Abbreviation cstep := (count_step decode render).

Lemma omap_cons (line : string) (lines : list string) :
  omap decode (line :: lines)
  = match decode line with
    | Some f => f :: omap decode lines
    | None => omap decode lines
    end.
Proof. reflexivity. Qed.

Lemma foldl_count_step (lines : list string) (st : session) :
  foldl cstep st lines
  = {| packet_count := packet_count st + length (omap decode lines);
       printed := printed st
                  ++ imap (fun i f => render f (packet_count st + S i))
                          (omap decode lines) |}.
Proof.
  revert st. induction lines as [|line lines IH]; intros st.
  - destruct st. simpl. by rewrite Nat.add_0_r, app_nil_r.
  - change (foldl cstep st (line :: lines))
      with (foldl cstep (cstep st line) lines).
    rewrite IH, omap_cons. unfold count_step.
    destruct (decode line) as [f|]; [|reflexivity].
    generalize (omap decode lines). intros ps. simpl.
    f_equal; [lia|]. rewrite <- app_assoc. simpl. do 2 f_equal.
    apply imap_ext. intros i g _. simpl. f_equal. lia.
Qed.

Lemma loop_from_zero (lines : list string) :
  foldl cstep session0 lines
  = {| packet_count := length (omap decode lines);
       printed := imap (fun i f => render f (S i)) (omap decode lines) |}.
Proof. by rewrite foldl_count_step. Qed.

Hypothesis render_numbered : forall f count, numbered (render f count) = true.

Lemma imap_render_numbered (g : nat -> nat) (l : list F) :
  Forall (fun s => numbered s = true) (imap (fun i f => render f (g i)) l).
Proof.
  apply Forall_forall. intros s Hs.
  apply list_elem_of_lookup in Hs as [i Hi].
  rewrite list_lookup_imap in Hi.
  destruct (l !! i) as [f|]; simplify_eq/=. apply render_numbered.
Qed.

End Loop.

Lemma simple_loop_eq (stream : list string) :
  Simple.loop stream
  = {| packet_count := length (omap Simple.decode stream);
       printed := imap (fun i f => Simple.render f (S i)) (omap Simple.decode stream) |}.
Proof. apply (loop_from_zero Simple.decode Simple.render). Qed.

Lemma tuple_loop_eq (stream : list string) :
  FiveTuple.loop stream
  = {| packet_count := length (omap FiveTuple.decode stream);
       printed := imap (fun i f => FiveTuple.render f (S i))
                       (omap FiveTuple.decode stream) |}.
Proof. apply (loop_from_zero FiveTuple.decode FiveTuple.render). Qed.

(** ** The whole run *)

Section Run.

Context {F : Type} (render : F -> nat -> string).
Hypothesis render_numbered : forall f count, numbered (render f count) = true.

Lemma quiet_events (l : list event) (s : string) :
  forallb (fun e => negb (prints_numbered e)) l = true ->
  Print s ∈ l -> numbered s = false.
Proof.
  intros Hall Hin. apply list_elem_of_In in Hin.
  rewrite forallb_forall in Hall. specialize (Hall _ Hin). simpl in Hall.
  by destruct (numbered s).
Qed.

Lemma no_notice_events (l : list event) :
  forallb (fun e => negb (prints_notice e)) l = true ->
  Print no_packets_notice ∉ l.
Proof.
  intros Hall Hin. apply list_elem_of_In in Hin.
  rewrite forallb_forall in Hall. specialize (Hall _ Hin).
  cbn [prints_notice] in Hall. by rewrite String.eqb_refl in Hall.
Qed.

Lemma no_notice_among_rendered (ps : list F) :
  Print no_packets_notice ∉ Print <$> imap (fun i f => render f (S i)) ps.
Proof.
  intros Hin. apply list_elem_of_fmap in Hin as (s & [= <-] & Hs).
  pose proof (imap_render_numbered render render_numbered S ps) as Hall.
  rewrite Forall_forall in Hall. specialize (Hall _ Hs). discriminate.
Qed.

End Run.

Lemma simple_before_quiet (src_ip interface : string) (debug : bool)
    (cmd spawned : list string) :
  let before := Simple.header src_ip interface
                ++ debug_lines debug ("ip.src == " +:+ src_ip) cmd ++ [Spawn spawned] in
  forallb (fun e => negb (prints_numbered e)) (before ++ Simple.notice) = true /\
  forallb (fun e => negb (prints_notice e)) before = true.
Proof. destruct debug; vm_compute; split; reflexivity. Qed.

Lemma tuple_before_quiet (src_ip interface : string) (debug : bool)
    (cmd spawned : list string) :
  let before := FiveTuple.header src_ip interface
                ++ debug_lines debug ("ip.src == " +:+ src_ip) cmd ++ [Spawn spawned] in
  forallb (fun e => negb (prints_numbered e)) (before ++ FiveTuple.notice) = true /\
  forallb (fun e => negb (prints_notice e)) before = true.
Proof. destruct debug; vm_compute; split; reflexivity. Qed.

Lemma numbered_lines_cons (e : event) (l : list event) :
  numbered_lines (e :: l)
  = match numbered_line e with
    | Some s => s :: numbered_lines l
    | None => numbered_lines l
    end.
Proof. reflexivity. Qed.

Lemma numbered_lines_quiet (l : list event) :
  forallb (fun e => negb (prints_numbered e)) l = true -> numbered_lines l = [].
Proof.
  induction l as [|e l IH]; [reflexivity|].
  intros [He Hl]%andb_true_iff. rewrite numbered_lines_cons, (IH Hl).
  destruct e as [s| | |]; try reflexivity.
  simpl in *. by destruct (numbered s).
Qed.

Lemma numbered_lines_prints (l : list string) :
  Forall (fun s => numbered s = true) l -> numbered_lines (Print <$> l) = l.
Proof.
  induction 1 as [|s l Hs _ IH]; [reflexivity|].
  rewrite fmap_cons, numbered_lines_cons. simpl. by rewrite Hs, IH.
Qed.

Lemma numbered_lines_app (l k : list event) :
  numbered_lines (l ++ k) = numbered_lines l ++ numbered_lines k.
Proof. apply omap_app. Qed.

(** *** The counter column *)

Lemma pretty_N_char_value (x : N) :
  (x < 10)%N -> (N_of_ascii (pretty_N_char x) - 48 = x)%N.
Proof.
  intros Hx.
  assert (x = 0 ∨ x = 1 ∨ x = 2 ∨ x = 3 ∨ x = 4 ∨ x = 5 ∨ x = 6 ∨ x = 7 ∨ x = 8
          ∨ x = 9)%N as Hcases by lia.
  destruct Hcases as [->|[->|[->|[->|[->|[->|[->|[->|[->| ->]]]]]]]]]; reflexivity.
Qed.

(** Reading back what [pretty_N_go] writes: the digits of [x] shift the
    accumulator by a power of ten and add [x]. *)
Lemma read_pretty_N_go (x : N) :
  exists p : N, forall acc s,
    read_decimal acc (pretty_N_go x s) = read_decimal (acc * p + x) s.
Proof.
  induction (N.lt_wf_0 x) as [x _ IH].
  assert (x = 0 ∨ 0 < x)%N as [->|Hpos] by lia.
  - exists 1%N. intros acc s. rewrite pretty_N_go_0. f_equal. lia.
  - destruct (IH (x `div` 10)%N) as [p Hp]; [by apply N.div_lt|].
    exists (10 * p)%N. intros acc s.
    rewrite pretty_N_go_step, Hp by done. simpl.
    rewrite pretty_N_char_value by (by apply N.mod_lt).
    f_equal. pose proof (N.div_mod x 10). lia.
Qed.

Lemma read_pretty_nat (n : nat) : read_decimal 0 (pretty n) = N.of_nat n.
Proof.
  unfold pretty, pretty_nat, pretty, pretty_N.
  case_decide as H0; [by rewrite H0|].
  destruct (read_pretty_N_go (N.of_nat n)) as [p Hp]. rewrite Hp. simpl. lia.
Qed.

Lemma pretty_N_go_all_digits (x : N) (s : string) :
  all_digits s = true -> all_digits (pretty_N_go x s) = true.
Proof.
  revert s. induction (N.lt_wf_0 x) as [x _ IH]; intros s Hs.
  assert (x = 0 ∨ 0 < x)%N as [->|Hpos] by lia.
  - by rewrite pretty_N_go_0.
  - rewrite pretty_N_go_step by done. apply IH; [by apply N.div_lt|].
    simpl. by rewrite pretty_N_char_digit.
Qed.

Lemma pretty_nat_all_digits (n : nat) : all_digits (pretty n) = true.
Proof.
  unfold pretty, pretty_nat, pretty, pretty_N.
  case_decide; [reflexivity|]. by apply pretty_N_go_all_digits.
Qed.

Lemma span_digits_exact (d r : string) :
  all_digits d = true -> starts_with_digit r = false ->
  span is_digit (d +:+ r) = (d, r).
Proof.
  intros Hd Hr. induction d as [|c d IH].
  - change ("" +:+ r) with r. destruct r as [|c r]; [reflexivity|].
    simpl in *. by rewrite Hr.
  - change (String c d +:+ r) with (String c (d +:+ r)). simpl in *.
    apply andb_true_iff in Hd as [Hc Hd]. by rewrite Hc, (IH Hd).
Qed.

Lemma lstrip_counter (w : nat) (p rest : string) :
  starts_with_digit p = true -> lstrip (rjust w p +:+ rest) = p +:+ rest.
Proof.
  intros Hp. unfold rjust. rewrite append_assoc, lstrip_spaces.
  destruct p as [|d p]; [discriminate|].
  change (String d p +:+ rest) with (String d (p +:+ rest)). simpl in *.
  by rewrite (digit_not_space d Hp).
Qed.

(** A line that starts with the right-justified counter and a space shows
    that counter. *)
Lemma counter_of_line (w count : nat) (rest : string) :
  counter_of (rjust w (pretty count) +:+ "  " +:+ rest) = Some count.
Proof.
  unfold counter_of.
  rewrite lstrip_counter by apply pretty_nat_starts_with_digit.
  rewrite span_digits_exact by (apply pretty_nat_all_digits || reflexivity).
  pose proof (pretty_nat_starts_with_digit count) as Hd.
  destruct (pretty count) as [|c d] eqn:Hp; [discriminate|].
  rewrite <- Hp, read_pretty_nat. f_equal. lia.
Qed.

Lemma simple_render_counter (f : Simple.fields) (count : nat) :
  counter_of (Simple.render f count) = Some count.
Proof. apply counter_of_line. Qed.

Lemma tuple_render_counter (f : FiveTuple.fields) (count : nat) :
  counter_of (FiveTuple.render f count) = Some count.
Proof. apply counter_of_line. Qed.

Lemma counters_of_rendered {F : Type} (render : F -> nat -> string) (ts : list F) :
  (forall f count, counter_of (render f count) = Some count) ->
  counter_of <$> imap (fun i f => render f (S i)) ts = Some <$> seq 1 (length ts).
Proof.
  intros Hrender. apply list_eq. intros i.
  rewrite !list_lookup_fmap, list_lookup_imap.
  destruct (ts !! i) as [f|] eqn:Hi; simpl.
  - rewrite lookup_seq_lt by (by eapply lookup_lt_Some). simpl. by rewrite Hrender.
  - by rewrite lookup_seq_ge by (by apply lookup_ge_None).
Qed.

(** C6. Over a stream whose lines decode to N tuples the loop ends with
    its counter at N and has printed exactly N lines, all numbered; the line
    at position k (from 0) is the k-th decoded tuple rendered with counter
    k + 1, and the counters read off the printed lines are 1, 2, ..., N in
    this order; these are all the numbered lines in the output of a run over
    that stream. *)
Theorem counter_counts_decoded_tuples (stream : list string) :
  (let ts := omap Simple.decode stream in
   let st := Simple.loop stream in
   packet_count st = length ts /\
   length (printed st) = length ts /\
   (forall k f, ts !! k = Some f -> printed st !! k = Some (Simple.render f (S k))) /\
   Forall (fun s => numbered s = true) (printed st) /\
   counter_of <$> printed st = Some <$> seq 1 (length ts) /\
   (forall popen src_ip interface count_limit debug,
      popen (["stdbuf"; "-oL"] ++ Simple.tshark_cmd src_ip interface count_limit)
        = Stream stream ->
      numbered_lines
        (Simple.run_simple_monitor popen src_ip interface count_limit debug).1
      = printed st /\
      counter_of <$> numbered_lines
        (Simple.run_simple_monitor popen src_ip interface count_limit debug).1
      = Some <$> seq 1 (length ts))) /\
  (let ts := omap FiveTuple.decode stream in
   let st := FiveTuple.loop stream in
   packet_count st = length ts /\
   length (printed st) = length ts /\
   (forall k f, ts !! k = Some f -> printed st !! k = Some (FiveTuple.render f (S k))) /\
   Forall (fun s => numbered s = true) (printed st) /\
   counter_of <$> printed st = Some <$> seq 1 (length ts) /\
   (forall popen src_ip interface count_limit debug,
      popen (["stdbuf"; "-oL"] ++ FiveTuple.tshark_cmd src_ip interface count_limit)
        = Stream stream ->
      numbered_lines
        (FiveTuple.run_5tuple_monitor popen src_ip interface count_limit debug).1
      = printed st /\
      counter_of <$> numbered_lines
        (FiveTuple.run_5tuple_monitor popen src_ip interface count_limit debug).1
      = Some <$> seq 1 (length ts))).
Proof.
  split; intros ts st; subst st.
  - rewrite simple_loop_eq. fold ts. cbn [packet_count printed].
    pose proof (counters_of_rendered Simple.render ts simple_render_counter) as Hcount.
    split; [reflexivity|]. split; [apply length_imap|]. split; [|split; [|split]].
    + intros k f Hk. by rewrite list_lookup_imap, Hk.
    + apply imap_render_numbered, simple_render_numbered.
    + exact Hcount.
    + intros popen src_ip interface count_limit debug Hopen.
      assert (Hlines : numbered_lines
          (Simple.run_simple_monitor popen src_ip interface count_limit debug).1
        = imap (fun i f => Simple.render f (S i)) ts).
      { unfold Simple.run_simple_monitor. rewrite Hopen, simple_loop_eq. fold ts.
        cbn [packet_count printed fst].
        destruct (simple_before_quiet src_ip interface debug
                    (Simple.tshark_cmd src_ip interface count_limit)
                    (["stdbuf"; "-oL"] ++ Simple.tshark_cmd src_ip interface count_limit))
          as [Hq _].
        apply numbered_lines_quiet in Hq. rewrite numbered_lines_app in Hq.
        apply app_eq_nil in Hq as [Hb Hn].
        rewrite numbered_lines_app, Hb, numbered_lines_app, numbered_lines_prints
          by apply imap_render_numbered, simple_render_numbered.
        destruct (length ts =? 0); [rewrite Hn|]; by rewrite app_nil_r. }
      by rewrite Hlines.
  - rewrite tuple_loop_eq. fold ts. cbn [packet_count printed].
    pose proof (counters_of_rendered FiveTuple.render ts tuple_render_counter) as Hcount.
    split; [reflexivity|]. split; [apply length_imap|]. split; [|split; [|split]].
    + intros k f Hk. by rewrite list_lookup_imap, Hk.
    + apply imap_render_numbered, tuple_render_numbered.
    + exact Hcount.
    + intros popen src_ip interface count_limit debug Hopen.
      assert (Hlines : numbered_lines
          (FiveTuple.run_5tuple_monitor popen src_ip interface count_limit debug).1
        = imap (fun i f => FiveTuple.render f (S i)) ts).
      { unfold FiveTuple.run_5tuple_monitor. rewrite Hopen, tuple_loop_eq. fold ts.
        cbn [packet_count printed fst].
        destruct (tuple_before_quiet src_ip interface debug
                    (FiveTuple.tshark_cmd src_ip interface count_limit)
                    (["stdbuf"; "-oL"] ++ FiveTuple.tshark_cmd src_ip interface count_limit))
          as [Hq _].
        apply numbered_lines_quiet in Hq. rewrite numbered_lines_app in Hq.
        apply app_eq_nil in Hq as [Hb Hn].
        rewrite numbered_lines_app, Hb, numbered_lines_app, numbered_lines_prints
          by apply imap_render_numbered, tuple_render_numbered.
        destruct (length ts =? 0); [rewrite Hn|]; by rewrite app_nil_r. }
      by rewrite Hlines.
Qed.

Lemma counter_counts_decoded_tuples_witness :
  counter_of <$> printed (Simple.loop ["10.0.0.1||10.0.0.2||6|"; ""; "10.0.0.1|||||";
                                       "10.0.0.1||10.0.0.3||17|";
                                       "|fe80::1||ff02::2||58"])
  = [Some 1; Some 2; Some 3] /\
  numbered_lines
    (Simple.run_simple_monitor
       (fun _ => Stream ["10.0.0.1||10.0.0.2||6|"; ""; "10.0.0.1|||||";
                         "10.0.0.1||10.0.0.3||17|"; "|fe80::1||ff02::2||58"])
       "10.0.0.1" "val0000000001" None false).1
  = ["     1  10.0.0.1        ---> 10.0.0.2         [TCP]";
     "     2  10.0.0.1        ---> 10.0.0.3         [UDP]";
     "     3  fe80::1         ---> ff02::2          [ICMPv6]"] /\
  numbered_lines
    (FiveTuple.run_5tuple_monitor
       (fun _ => Stream ["10.0.0.1||443||10.0.0.2||80||6|"; "|||||||||";
                         "10.0.0.1|||53|10.0.0.3|||53|17|"])
       "10.0.0.1" "val0000000001" None false).1
  = ["     1  10.0.0.1:443           ---> 10.0.0.2:80             [TCP]";
     "     2  10.0.0.1:53            ---> 10.0.0.3:53             [UDP]"] /\
  counter_of <$> numbered_lines
    (FiveTuple.run_5tuple_monitor
       (fun _ => Stream ["10.0.0.1||443||10.0.0.2||80||6|"; "|||||||||";
                         "10.0.0.1|||53|10.0.0.3|||53|17|"])
       "10.0.0.1" "val0000000001" None false).1
  = [Some 1; Some 2].
Proof.
  pose proof (counter_counts_decoded_tuples
                ["10.0.0.1||10.0.0.2||6|"; ""; "10.0.0.1|||||";
                 "10.0.0.1||10.0.0.3||17|"; "|fe80::1||ff02::2||58"])
    as ((_ & _ & _ & _ & Hcount & Hsimple) & _).
  pose proof (counter_counts_decoded_tuples
                ["10.0.0.1||443||10.0.0.2||80||6|"; "|||||||||";
                 "10.0.0.1|||53|10.0.0.3|||53|17|"]) as (_ & _ & _ & _ & _ & _ & Htuple).
  destruct (Hsimple (fun _ => Stream _) "10.0.0.1" "val0000000001" None false eq_refl)
    as [Hs1 _].
  destruct (Htuple (fun _ => Stream _) "10.0.0.1" "val0000000001" None false eq_refl)
    as [Ht1 Ht2].
  split; [rewrite Hcount; vm_compute; reflexivity|].
  split; [rewrite Hs1; vm_compute; reflexivity|].
  split; [rewrite Ht1; vm_compute; reflexivity|].
  rewrite Ht2. vm_compute. reflexivity.
Defined.

(** C8. When the capture process starts and its stream ends: if no line
    decoded to a tuple, the output contains the "No packets were captured"
    notice and no numbered line; if at least one did, the notice is not
    printed. *)
Theorem notice_iff_nothing_decoded
    (popen : list string -> launch) (src_ip interface : string)
    (count_limit : option Z) (debug : bool) (lines : list string) :
  (popen (["stdbuf"; "-oL"] ++ Simple.tshark_cmd src_ip interface count_limit)
     = Stream lines ->
   let out := (Simple.run_simple_monitor popen src_ip interface count_limit debug).1 in
   (omap Simple.decode lines = [] ->
      Print no_packets_notice ∈ out /\ forall s, Print s ∈ out -> numbered s = false) /\
   (omap Simple.decode lines ≠ [] -> Print no_packets_notice ∉ out)) /\
  (popen (["stdbuf"; "-oL"] ++ FiveTuple.tshark_cmd src_ip interface count_limit)
     = Stream lines ->
   let out := (FiveTuple.run_5tuple_monitor popen src_ip interface count_limit debug).1 in
   (omap FiveTuple.decode lines = [] ->
      Print no_packets_notice ∈ out /\ forall s, Print s ∈ out -> numbered s = false) /\
   (omap FiveTuple.decode lines ≠ [] -> Print no_packets_notice ∉ out)).
Proof.
  split; intros Hopen out; subst out.
  - unfold Simple.run_simple_monitor. rewrite Hopen, simple_loop_eq. cbn [packet_count printed fst].
    destruct (simple_before_quiet src_ip interface debug
                (Simple.tshark_cmd src_ip interface count_limit)
                (["stdbuf"; "-oL"] ++ Simple.tshark_cmd src_ip interface count_limit))
      as [Hq Hn].
    split; intros Hts.
    + rewrite Hts. cbn [length imap fmap list_fmap Nat.eqb app]. split.
      * apply elem_of_app. right. unfold Simple.notice. set_solver.
      * intros s Hs. by apply (quiet_events _ _ Hq).
    + destruct (omap Simple.decode lines) as [|f ts] eqn:Hps; [done|].
      cbn [length Nat.eqb]. rewrite app_nil_r. intros Hin.
      apply elem_of_app in Hin as [Hin|Hin].
      * by apply (no_notice_events _ Hn).
      * by apply (no_notice_among_rendered Simple.render simple_render_numbered (f :: ts)).
  - unfold FiveTuple.run_5tuple_monitor. rewrite Hopen, tuple_loop_eq.
    cbn [packet_count printed fst].
    destruct (tuple_before_quiet src_ip interface debug
                (FiveTuple.tshark_cmd src_ip interface count_limit)
                (["stdbuf"; "-oL"] ++ FiveTuple.tshark_cmd src_ip interface count_limit))
      as [Hq Hn].
    split; intros Hts.
    + rewrite Hts. cbn [length imap fmap list_fmap Nat.eqb app]. split.
      * apply elem_of_app. right. unfold FiveTuple.notice. set_solver.
      * intros s Hs. by apply (quiet_events _ _ Hq).
    + destruct (omap FiveTuple.decode lines) as [|f ts] eqn:Hps; [done|].
      cbn [length Nat.eqb]. rewrite app_nil_r. intros Hin.
      apply elem_of_app in Hin as [Hin|Hin].
      * by apply (no_notice_events _ Hn).
      * by apply (no_notice_among_rendered FiveTuple.render tuple_render_numbered (f :: ts)).
Qed.

Lemma notice_iff_nothing_decoded_witness :
  Print no_packets_notice
    ∈ (Simple.run_simple_monitor (fun _ => Stream []) "10.0.0.1" "any" None false).1 /\
  Print no_packets_notice
    ∉ (FiveTuple.run_5tuple_monitor
         (fun _ => Stream ["10.0.0.1||443||10.0.0.2||80||6|"; "|||||||||"])
         "10.0.0.1" "val0000000001" (Some 3%Z) true).1.
Proof.
  split.
  - destruct (notice_iff_nothing_decoded (fun _ => Stream [])
                "10.0.0.1" "any" None false []) as [Hs _].
    exact (proj1 (proj1 (Hs eq_refl) eq_refl)).
  - destruct (notice_iff_nothing_decoded
                (fun _ => Stream ["10.0.0.1||443||10.0.0.2||80||6|"; "|||||||||"])
                "10.0.0.1" "val0000000001" (Some 3%Z) true
                ["10.0.0.1||443||10.0.0.2||80||6|"; "|||||||||"]) as [_ Ht].
    apply (proj2 (Ht eq_refl)). vm_compute. discriminate.
Defined.

(** ** The permission probe *)

Lemma lower_truthy (s : string) : truthy (lower s) = truthy s.
Proof. by destruct s. Qed.

(** C2, as amended. The probe classifies the outcome of its subprocess:
    a missing binary gives not-ok with "tshark not found"; a completed run
    whose stderr mentions permission gives not-ok with the trimmed stderr; a
    completed run with non-zero exit and any other non-empty stderr gives
    not-ok with the trimmed stderr; a timeout gives ok; any other error
    raised while running the subprocess gives not-ok with the error's text;
    every other completed run gives ok with an empty message. *)
Theorem probe_classification (run : list string -> run_outcome) (interface : string) :
  let result := run (probe_cmd interface) in
  let verdict := probe_capture_permissions run interface in
  (result = FileNotFoundError ->
     verdict = (false, "tshark not found") /\ contains "not found" verdict.2 = true) /\
  (forall rc out err, result = Completed rc out err ->
     mentions_permission (lower err) = true -> verdict = (false, strip err)) /\
  (forall rc out err, result = Completed rc out err ->
     mentions_permission (lower err) = false -> rc ≠ 0%Z -> err ≠ "" ->
     verdict = (false, strip err)) /\
  (result = TimeoutExpired -> verdict = (true, "")) /\
  (forall msg, result = OtherException msg -> verdict = (false, msg)) /\
  (forall rc out err, result = Completed rc out err ->
     mentions_permission (lower err) = false -> rc = 0%Z \/ err = "" ->
     verdict = (true, "")).
Proof.
  intros result verdict. subst verdict. unfold probe_capture_permissions. fold result.
  repeat apply conj.
  - intros ->. split; reflexivity.
  - intros rc out err -> Hp. simpl. by rewrite Hp.
  - intros rc out err -> Hp Hrc Herr. simpl. rewrite Hp, lower_truthy.
    apply Z.eqb_neq in Hrc. apply truthy_true in Herr. by rewrite Hrc, Herr.
  - by intros ->.
  - by intros msg ->.
  - intros rc out err -> Hp Hor. simpl. rewrite Hp, lower_truthy.
    destruct Hor as [-> | ->]; [reflexivity|]. simpl. by rewrite andb_false_r.
Qed.

Lemma probe_classification_witness :
  probe_capture_permissions
    (fun _ => Completed 1 "" ("tshark: You don't have permission to capture on that device." +:+ nl))
    "val0000000001"
  = (false, "tshark: You don't have permission to capture on that device.") /\
  probe_capture_permissions
    (fun _ => Completed 2 "" ("tshark: There is no device named 'nope'" +:+ nl)) "nope"
  = (false, "tshark: There is no device named 'nope'") /\
  probe_capture_permissions (fun _ => FileNotFoundError) "any" = (false, "tshark not found") /\
  probe_capture_permissions (fun _ => TimeoutExpired) "any" = (true, "") /\
  probe_capture_permissions (fun _ => Completed 0 "" ("Capturing on 'any'" +:+ nl)) "any"
  = (true, "").
Proof.
  split; [|split; [|split; [|split]]].
  - pose proof (probe_classification
      (fun _ => Completed 1 "" ("tshark: You don't have permission to capture on that device." +:+ nl))
      "val0000000001") as (_ & H & _).
    exact (H _ _ _ eq_refl eq_refl).
  - pose proof (probe_classification
      (fun _ => Completed 2 "" ("tshark: There is no device named 'nope'" +:+ nl))
      "nope") as (_ & _ & H & _).
    refine (H _ _ _ eq_refl eq_refl _ _); discriminate.
  - pose proof (probe_classification (fun _ => FileNotFoundError) "any") as (H & _).
    exact (proj1 (H eq_refl)).
  - pose proof (probe_classification (fun _ => TimeoutExpired) "any") as (_ & _ & _ & H & _).
    exact (H eq_refl).
  - pose proof (probe_classification
      (fun _ => Completed 0 "" ("Capturing on 'any'" +:+ nl)) "any")
      as (_ & _ & _ & _ & _ & H).
    exact (H _ _ _ eq_refl eq_refl (or_introl eq_refl)).
Defined.

(** C2, as stated, fails in its last case: an error raised while running
    the subprocess that is neither a missing binary nor a timeout is none of
    the listed cases, and the probe answers not-ok with the error's text. *)
Lemma probe_other_error_counterexample :
  let run := fun _ : list string => OtherException "[Errno 8] Exec format error: 'tshark'" in
  run (probe_cmd "val0000000001") ≠ FileNotFoundError /\
  run (probe_cmd "val0000000001") ≠ TimeoutExpired /\
  (forall rc out err, run (probe_cmd "val0000000001") ≠ Completed rc out err) /\
  probe_capture_permissions run "val0000000001"
  = (false, "[Errno 8] Exec format error: 'tshark'").
Proof. simpl. repeat split; discriminate. Qed.

(** ** Falling back to the "any" interface *)

Lemma simple_run_spawns (popen : list string -> launch) (src_ip interface : string)
    (count_limit : option Z) (debug : bool) :
  Spawn (["stdbuf"; "-oL"] ++ Simple.tshark_cmd src_ip interface count_limit)
    ∈ (Simple.run_simple_monitor popen src_ip interface count_limit debug).1.
Proof.
  unfold Simple.run_simple_monitor.
  destruct (popen _); cbn [fst]; rewrite ?elem_of_app, ?list_elem_of_singleton; tauto.
Qed.

Lemma tuple_run_spawns (popen : list string -> launch) (src_ip interface : string)
    (count_limit : option Z) (debug : bool) :
  Spawn (["stdbuf"; "-oL"] ++ FiveTuple.tshark_cmd src_ip interface count_limit)
    ∈ (FiveTuple.run_5tuple_monitor popen src_ip interface count_limit debug).1.
Proof.
  unfold FiveTuple.run_5tuple_monitor.
  destruct (popen _); cbn [fst]; rewrite ?elem_of_app, ?list_elem_of_singleton; tauto.
Qed.

(** What [run_monitoring] does around the probe of its interface. *)
Lemma run_monitoring_probes_first (w : world) (a : args) (ip iface : string) :
  let cmd := if five_tuple a then FiveTuple.tshark_cmd ip iface (count a)
             else Simple.tshark_cmd ip iface (count a) in
  let ok := (probe_capture_permissions (run w) iface).1 in
  exists pre post,
    (run_monitoring w a ip iface).1 = pre ++ Spawn (probe_cmd iface) :: post /\
    forallb (fun e => negb (starts_capture e)) pre = true /\
    (ok = false ->
       forallb (fun e => negb (starts_capture e)) post = true /\
       (run_monitoring w a ip iface).2 = 1%Z) /\
    (ok = true -> Spawn (["stdbuf"; "-oL"] ++ cmd) ∈ post).
Proof.
  intros cmd ok. subst cmd ok. unfold run_monitoring.
  set (warn := if negb (euid w =? 0)%Z then _ else []).
  assert (Hwarn : forallb (fun e => negb (starts_capture e)) warn = true).
  { subst warn. by destruct (negb (euid w =? 0)%Z). }
  destruct (probe_capture_permissions (run w) iface) as [[|] msg]; cbn [negb fst].
  - set (r := if five_tuple a then _ else _).
    assert (Hr : Spawn (["stdbuf"; "-oL"] ++
                        (if five_tuple a then FiveTuple.tshark_cmd ip iface (count a)
                         else Simple.tshark_cmd ip iface (count a))) ∈ r.1).
    { subst r. destruct (five_tuple a); [apply tuple_run_spawns|apply simple_run_spawns]. }
    destruct r as [out [[e|e]|]]; cbn [fst snd] in *.
    + exists warn, (out ++ [Print (nl +:+ "Error: Permission denied. Try running with sudo:");
                            Print ("  sudo " +:+ join " " (argv w))]).
      split; [reflexivity|]. split; [exact Hwarn|]. split; [discriminate|].
      intros _. apply elem_of_app. by left.
    + exists warn, (out ++ [Print (nl +:+ "Error: " +:+ e)]).
      split; [reflexivity|]. split; [exact Hwarn|]. split; [discriminate|].
      intros _. apply elem_of_app. by left.
    + exists warn, out.
      split; [reflexivity|]. split; [exact Hwarn|]. split; [discriminate|].
      intros _. exact Hr.
  - eexists warn, _. split; [reflexivity|]. split; [exact Hwarn|].
    split; [|discriminate]. intros _. split; [|reflexivity].
    by destruct (truthy msg).
Qed.

(** C9, as amended. When an explicit source address is given, no interface
    is given, and no local val* interface has that address, [main] falls
    back to the interface "any" and runs the permission probe on "any"
    before any live capture starts; the capture on "any" starts only if
    that probe answers ok, and otherwise the script exits with status 1. *)
Theorem fallback_any_is_probed_first (w : world) (a : args) (ip : string) :
  check_tshark (run w) = true ->
  select a = false ->
  src_ip a = Some ip ->
  ip ≠ "" ->
  interface a = "" ->
  match_iface (active_ues w) ip = None ->
  let cmd := if five_tuple a then FiveTuple.tshark_cmd ip "any" (count a)
             else Simple.tshark_cmd ip "any" (count a) in
  let ok := (probe_capture_permissions (run w) "any").1 in
  exists pre post,
    (main w a).1 = pre ++ Spawn (probe_cmd "any") :: post /\
    forallb (fun e => negb (starts_capture e)) pre = true /\
    (ok = false ->
       forallb (fun e => negb (starts_capture e)) post = true /\ (main w a).2 = 1%Z) /\
    (ok = true -> Spawn (["stdbuf"; "-oL"] ++ cmd) ∈ post).
Proof.
  intros Hcheck Hselect Hsrc Hip Hiface Hmatch cmd ok.
  destruct (run_monitoring_probes_first w a ip "any")
    as (pre & post & Hrest & Hpre & Hbad & Hgood).
  unfold main. rewrite Hcheck, Hselect, Hsrc. cbn [negb].
  destruct ip as [|c ip']; [done|]. rewrite Hiface, Hmatch. cbn [truthy negb].
  destruct (run_monitoring w a (String c ip') "any") as [rest status].
  cbn [fst snd] in *. subst rest.
  eexists (_ :: _ :: _ :: pre), post.
  split; [reflexivity|]. split; [exact Hpre|]. split; [exact Hbad|exact Hgood].
Qed.

Lemma fallback_any_is_probed_first_witness :
  exists pre post,
    (main quiet_host src_ip_only).1 = pre ++ Spawn (probe_cmd "any") :: post /\
    forallb (fun e => negb (starts_capture e)) pre = true /\
    Spawn (["stdbuf"; "-oL"] ++ Simple.tshark_cmd "10.0.0.9" "any" None) ∈ post.
Proof.
  destruct (fallback_any_is_probed_first quiet_host src_ip_only "10.0.0.9")
    as (pre & post & Htrace & Hpre & _ & Hok);
    [reflexivity | reflexivity | reflexivity | discriminate | reflexivity | reflexivity |].
  exists pre, post. split; [exact Htrace|]. split; [exact Hpre|].
  apply Hok. reflexivity.
Defined.

(** C9, as stated, fails: on a host where no val* interface has the given
    address, the script warns, then starts the probe on "any" (event 3), and
    only after it the live capture on "any" (event 12). *)
Lemma fallback_any_counterexample :
  match_iface (active_ues quiet_host) "10.0.0.9" = None /\
  (main quiet_host src_ip_only).1 !! 1
    = Some (Print "Warning: no local val* interface has IP 10.0.0.9; using capture interface 'any'.") /\
  (main quiet_host src_ip_only).1 !! 3 = Some (Spawn (probe_cmd "any")) /\
  (main quiet_host src_ip_only).1 !! 12
    = Some (Spawn (["stdbuf"; "-oL"] ++ Simple.tshark_cmd "10.0.0.9" "any" None)) /\
  (main quiet_host src_ip_only).2 = 0%Z.
Proof. vm_compute. repeat split. Qed.

(** * Further properties of the script *)

(** ** White space around a line *)

Lemma rstrip_all_space (ws : string) : all_space ws = true -> rstrip ws = "".
Proof.
  induction ws as [|c ws IH]; [reflexivity|]. simpl.
  intros [Hc Hws]%andb_true_iff. by rewrite (IH Hws), Hc.
Qed.

Lemma lstrip_all_space (ws : string) : all_space ws = true -> lstrip ws = "".
Proof.
  induction ws as [|c ws IH]; [reflexivity|]. simpl.
  intros [Hc Hws]%andb_true_iff. by rewrite Hc, (IH Hws).
Qed.

Lemma rstrip_app_space (s ws : string) :
  all_space ws = true -> rstrip (s +:+ ws) = rstrip s.
Proof.
  intros Hws. induction s as [|c s IH]; [by apply rstrip_all_space|].
  change (String c s +:+ ws) with (String c (s +:+ ws)). simpl. by rewrite IH.
Qed.

Lemma strip_app_space (s ws : string) :
  all_space ws = true -> strip (s +:+ ws) = strip s.
Proof.
  intros Hws. unfold strip. induction s as [|c s IH].
  - change ("" +:+ ws) with ws. by rewrite lstrip_all_space.
  - change (String c s +:+ ws) with (String c (s +:+ ws)). simpl.
    destruct (is_space c); [exact IH|].
    change (String c (s +:+ ws)) with (String c s +:+ ws).
    by apply rstrip_app_space.
Qed.

Lemma strip_space_app (ws s : string) :
  all_space ws = true -> strip (ws +:+ s) = strip s.
Proof.
  unfold strip. induction ws as [|c ws IH]; [reflexivity|].
  intros [Hc Hws]%andb_true_iff.
  change (String c ws +:+ s) with (String c (ws +:+ s)). simpl.
  rewrite Hc. by apply IH.
Qed.

Lemma simple_resolve_strip (l1 l2 : string) :
  strip l1 = strip l2 -> Simple.resolve l1 = Simple.resolve l2.
Proof. unfold Simple.resolve. by intros ->. Qed.

Lemma tuple_resolve_strip (l1 l2 : string) :
  strip l1 = strip l2 -> FiveTuple.resolve l1 = FiveTuple.resolve l2.
Proof. unfold FiveTuple.resolve. by intros ->. Qed.

(** X1. White space before and after a line (its line end, a carriage
    return, indentation) does not change what the line decodes to, in
    either mode. *)
Theorem decode_ignores_outer_space (before line after : string) :
  all_space before = true ->
  all_space after = true ->
  Simple.decode (before +:+ line +:+ after) = Simple.decode line /\
  FiveTuple.decode (before +:+ line +:+ after) = FiveTuple.decode line.
Proof.
  intros Hb Ha.
  assert (Hs : strip (before +:+ line +:+ after) = strip line).
  { by rewrite strip_space_app, strip_app_space. }
  unfold Simple.decode, FiveTuple.decode.
  by rewrite (simple_resolve_strip _ _ Hs), (tuple_resolve_strip _ _ Hs).
Qed.

Lemma decode_ignores_outer_space_witness :
  Simple.decode ("  " +:+ "10.0.0.1||10.0.0.2||17|" +:+ String "013" nl)
  = Simple.decode "10.0.0.1||10.0.0.2||17|" /\
  FiveTuple.decode ("  " +:+ "10.0.0.1||10.0.0.2||17|" +:+ String "013" nl)
  = FiveTuple.decode "10.0.0.1||10.0.0.2||17|".
Proof.
  apply (decode_ignores_outer_space "  " "10.0.0.1||10.0.0.2||17|" (String "013" nl));
    reflexivity.
Defined.

(** X2. A line of white space only (an empty line included) is skipped in
    both modes: the counter and the printed lines stay as they were. *)
Theorem blank_line_is_skipped (line : string) (st : session) :
  all_space line = true ->
  Simple.step st line = st /\ FiveTuple.step st line = st.
Proof.
  intros Hl.
  assert (Hs : strip line = "").
  { unfold strip. by rewrite lstrip_all_space. }
  unfold Simple.step, Simple.decode, Simple.resolve,
    FiveTuple.step, FiveTuple.decode, FiveTuple.resolve.
  by rewrite Hs.
Qed.

Lemma blank_line_is_skipped_witness :
  Simple.step {| packet_count := 7; printed := ["x"] |} (String "009" (" " +:+ nl))
  = {| packet_count := 7; printed := ["x"] |} /\
  FiveTuple.step {| packet_count := 7; printed := ["x"] |} (String "009" (" " +:+ nl))
  = {| packet_count := 7; printed := ["x"] |}.
Proof.
  apply (blank_line_is_skipped (String "009" (" " +:+ nl))). reflexivity.
Defined.

(** ** The protocol label *)

Ltac in_list := repeat first [apply list_elem_of_here | apply list_elem_of_further].

Lemma protocol_map_values (s v : string) :
  protocol_map !! s = Some v -> v ∈ ["ICMP"; "TCP"; "UDP"; "ICMPv6"].
Proof.
  unfold protocol_map. rewrite !lookup_insert.
  repeat case_decide; rewrite ?lookup_empty; intros [= <-]; in_list.
Qed.

(** X3. The protocol label is never empty: it is one of the four mnemonics,
    the literal "IP", or the non-empty field itself; so every resolved
    record, in either mode, carries a non-empty label. *)
Theorem protocol_label_never_empty (proto_num : string) :
  map_protocol proto_num ≠ "" /\
  (map_protocol proto_num ∈ ["ICMP"; "TCP"; "UDP"; "ICMPv6"; "IP"] \/
   (proto_num ≠ "" /\ map_protocol proto_num = proto_num)) /\
  (forall line f, Simple.resolve line = Some f -> Simple.protocol f ≠ "") /\
  (forall line f, FiveTuple.resolve line = Some f -> FiveTuple.protocol f ≠ "").
Proof.
  assert (Hcases : forall s,
    map_protocol s ∈ ["ICMP"; "TCP"; "UDP"; "ICMPv6"; "IP"] \/
    (s ≠ "" /\ map_protocol s = s)).
  { intros s. unfold map_protocol.
    destruct (protocol_map !! s) as [v|] eqn:Hv; simpl.
    - left. apply protocol_map_values in Hv.
      rewrite !elem_of_cons in Hv. rewrite !elem_of_cons. tauto.
    - destruct s; simpl; [left; in_list|right; done]. }
  assert (Hne : forall s, map_protocol s ≠ "").
  { intros s. destruct (Hcases s) as [Hin|[Hs ->]]; [|done].
    intros Heq. rewrite Heq, !elem_of_cons, elem_of_nil in Hin.
    intuition discriminate. }
  split; [apply Hne|]. split; [apply Hcases|]. split.
  - intros line f Hf. destruct (simple_resolve_inv line f Hf) as (_ & _ & _ & _ & ->).
    apply Hne.
  - intros line f Hf.
    destruct (tuple_resolve_inv line f Hf) as (_ & _ & _ & _ & _ & _ & ->).
    apply Hne.
Qed.

Lemma protocol_label_never_empty_witness :
  exists f, FiveTuple.resolve "10.0.0.1||||10.0.0.2||||47|" = Some f /\
            FiveTuple.protocol f ≠ "".
Proof.
  eexists. split; [vm_compute; reflexivity|].
  apply (proj2 (proj2 (proj2 (protocol_label_never_empty "47")))
           "10.0.0.1||||10.0.0.2||||47|").
  vm_compute. reflexivity.
Defined.

(** ** Fields beyond the layout *)

Lemma split_not_nil (sep : ascii) (s : string) : split sep s ≠ [].
Proof.
  intros H. pose proof (split_length sep s) as Hl. by rewrite H in Hl.
Qed.

(** The line is empty exactly when it splits into one empty field. *)
Lemma truthy_by_parts (t : string) :
  truthy t = negb ((length (split "|" t) =? 1) && negb (truthy (split "|" t !!! 0))).
Proof.
  destruct t as [|c t]; [reflexivity|]. simpl.
  destruct (Ascii.eqb c "|").
  - pose proof (split_not_nil "|" t). by destruct (split "|" t).
  - destruct (split "|" t) as [|h [|h' r]]; reflexivity.
Qed.

Section FirstFields.

Variable n : nat.
Variable p : list string.

Lemma take_length_eqb (k : nat) : k < n -> (length (take n p) =? k) = (length p =? k).
Proof.
  intros Hk. rewrite length_take.
  destruct (Nat.eqb_spec (length p) k), (Nat.eqb_spec (n `min` length p) k); lia.
Qed.

Lemma take_length_ltb (k : nat) : k <= n -> (length (take n p) <? k) = (length p <? k).
Proof.
  intros Hk. rewrite length_take.
  destruct (Nat.ltb_spec (length p) k), (Nat.ltb_spec (n `min` length p) k); lia.
Qed.

Lemma take_ltb_length (k : nat) : k < n -> (k <? length (take n p)) = (k <? length p).
Proof.
  intros Hk. rewrite length_take.
  destruct (Nat.ltb_spec k (length p)), (Nat.ltb_spec k (n `min` length p)); lia.
Qed.

Lemma take_proto_num_at (i : nat) :
  S i < n -> proto_num_at i (take n p) = proto_num_at i p.
Proof.
  intros Hi. unfold proto_num_at.
  by rewrite !take_ltb_length, !lookup_total_take_lt by lia.
Qed.

End FirstFields.

Lemma simple_resolve_first_fields (line : string) :
  let p := take 6 (split "|" (strip line)) in
  Simple.resolve line
  = if (length p =? 1) && negb (truthy (p !!! 0)) then None
    else if length p <? 4 then None
    else Some {| Simple.src := if truthy (p !!! 0) then p !!! 0 else p !!! 1;
                 Simple.dst := if truthy (p !!! 2) then p !!! 2 else p !!! 3;
                 Simple.proto_num := proto_num_at 4 p;
                 Simple.protocol := map_protocol (proto_num_at 4 p) |}.
Proof.
  intros p. subst p. unfold Simple.resolve.
  rewrite take_length_eqb, take_length_ltb, take_proto_num_at,
    !lookup_total_take_lt by lia.
  rewrite (truthy_by_parts (strip line)), negb_involutive.
  by destruct (_ && _).
Qed.

Lemma tuple_resolve_first_fields (line : string) :
  let p := take 10 (split "|" (strip line)) in
  FiveTuple.resolve line
  = if (length p =? 1) && negb (truthy (p !!! 0)) then None
    else if length p <? 8 then None
    else Some {| FiveTuple.src := if truthy (p !!! 0) then p !!! 0 else p !!! 1;
                 FiveTuple.src_port := if truthy (p !!! 2) then p !!! 2 else p !!! 3;
                 FiveTuple.dst := if truthy (p !!! 4) then p !!! 4 else p !!! 5;
                 FiveTuple.dst_port := if truthy (p !!! 6) then p !!! 6 else p !!! 7;
                 FiveTuple.proto_num := proto_num_at 8 p;
                 FiveTuple.protocol := map_protocol (proto_num_at 8 p) |}.
Proof.
  intros p. subst p. unfold FiveTuple.resolve.
  rewrite take_length_eqb, take_length_ltb, take_proto_num_at,
    !lookup_total_take_lt by lia.
  rewrite (truthy_by_parts (strip line)), negb_involutive.
  by destruct (_ && _).
Qed.

(** X4. Only the fields of the layout are read: two lines that agree on
    their first 6 fields resolve alike in simple mode, and two lines that
    agree on their first 10 fields resolve alike in 5-tuple mode; whatever
    follows is ignored. *)
Theorem surplus_fields_are_ignored (l1 l2 : string) :
  (take 6 (split "|" (strip l1)) = take 6 (split "|" (strip l2)) ->
     Simple.resolve l1 = Simple.resolve l2 /\ Simple.decode l1 = Simple.decode l2) /\
  (take 10 (split "|" (strip l1)) = take 10 (split "|" (strip l2)) ->
     FiveTuple.resolve l1 = FiveTuple.resolve l2 /\
     FiveTuple.decode l1 = FiveTuple.decode l2).
Proof.
  split; intros H.
  - assert (Hr : Simple.resolve l1 = Simple.resolve l2).
    { rewrite !simple_resolve_first_fields. cbv zeta. by rewrite H. }
    split; [exact Hr|]. unfold Simple.decode. by rewrite Hr.
  - assert (Hr : FiveTuple.resolve l1 = FiveTuple.resolve l2).
    { rewrite !tuple_resolve_first_fields. cbv zeta. by rewrite H. }
    split; [exact Hr|]. unfold FiveTuple.decode. by rewrite Hr.
Qed.

Lemma surplus_fields_are_ignored_witness :
  Simple.decode "10.0.0.1||10.0.0.2||6||80|443"
  = Simple.decode "10.0.0.1||10.0.0.2||6|" /\
  FiveTuple.decode "10.0.0.1||443||10.0.0.2||80||6||x|y"
  = FiveTuple.decode "10.0.0.1||443||10.0.0.2||80||6|".
Proof.
  split.
  - apply (proj1 (surplus_fields_are_ignored
                    "10.0.0.1||10.0.0.2||6||80|443" "10.0.0.1||10.0.0.2||6|")).
    reflexivity.
  - apply (proj2 (surplus_fields_are_ignored
                    "10.0.0.1||443||10.0.0.2||80||6||x|y"
                    "10.0.0.1||443||10.0.0.2||80||6|")).
    reflexivity.
Defined.

(** ** The width of a printed line *)

Lemma length_append (a b : string) :
  String.length (a +:+ b) = String.length a + String.length b.
Proof.
  induction a as [|c a IH]; [reflexivity|].
  change (String c a +:+ b) with (String c (a +:+ b)). simpl. by rewrite IH.
Qed.

Lemma length_repeat (c : ascii) (n : nat) : String.length (repeat c n) = n.
Proof. induction n as [|n IH]; simpl; by rewrite ?IH. Qed.

Lemma length_ljust (w : nat) (s : string) :
  String.length (ljust w s) = w `max` String.length s.
Proof. unfold ljust. rewrite length_append, length_repeat. lia. Qed.

Lemma length_rjust (w : nat) (s : string) :
  String.length (rjust w s) = w `max` String.length s.
Proof. unfold rjust. rewrite length_append, length_repeat. lia. Qed.

(** X5. Padding never truncates. A simple line is as wide as its columns:
    the counter in at least 6 characters, each address in at least 15,
    the protocol, and 12 characters of separators; a 5-tuple line
    likewise with endpoints in at least 22. So when the counter has at
    most 6 digits and the addresses (endpoints) fit their columns, every
    line is 48 (62) characters plus the protocol label. *)
Theorem line_width (src_ip src_port dst_ip dst_port protocol : string) (count : nat) :
  String.length (format_simple_line src_ip dst_ip protocol count)
  = (6 `max` String.length (pretty count)) + (15 `max` String.length src_ip)
    + (15 `max` String.length dst_ip) + String.length protocol + 12 /\
  String.length (format_5tuple_line src_ip src_port dst_ip dst_port protocol count)
  = (6 `max` String.length (pretty count))
    + (22 `max` String.length (endpoint src_ip src_port))
    + (22 `max` String.length (endpoint dst_ip dst_port))
    + String.length protocol + 12 /\
  (String.length (pretty count) <= 6 ->
   String.length src_ip <= 15 -> String.length dst_ip <= 15 ->
   String.length (format_simple_line src_ip dst_ip protocol count)
   = 48 + String.length protocol) /\
  (String.length (pretty count) <= 6 ->
   String.length (endpoint src_ip src_port) <= 22 ->
   String.length (endpoint dst_ip dst_port) <= 22 ->
   String.length (format_5tuple_line src_ip src_port dst_ip dst_port protocol count)
   = 62 + String.length protocol).
Proof.
  assert (H1 : String.length (format_simple_line src_ip dst_ip protocol count)
    = (6 `max` String.length (pretty count)) + (15 `max` String.length src_ip)
      + (15 `max` String.length dst_ip) + String.length protocol + 12).
  { unfold format_simple_line.
    rewrite !length_append, length_rjust, !length_ljust. simpl. lia. }
  assert (H2 : String.length
      (format_5tuple_line src_ip src_port dst_ip dst_port protocol count)
    = (6 `max` String.length (pretty count))
      + (22 `max` String.length (endpoint src_ip src_port))
      + (22 `max` String.length (endpoint dst_ip dst_port))
      + String.length protocol + 12).
  { unfold format_5tuple_line. cbv zeta.
    rewrite !length_append, length_rjust, !length_ljust. simpl. lia. }
  split; [exact H1|]. split; [exact H2|]. split; intros; lia.
Qed.

Lemma line_width_witness :
  String.length (format_simple_line "10.61.0.1" "192.168.100.200" "ICMPv6" 4242) = 54 /\
  String.length (format_5tuple_line "10.61.0.1" "51234" "8.8.8.8" "" "UDP" 12) = 65.
Proof.
  pose proof (line_width "10.61.0.1" "" "192.168.100.200" "" "ICMPv6" 4242)
    as (_ & _ & Hs & _).
  pose proof (line_width "10.61.0.1" "51234" "8.8.8.8" "" "UDP" 12) as (_ & _ & _ & Ht).
  split.
  - rewrite Hs; [reflexivity|vm_compute; lia..].
  - rewrite Ht; [reflexivity|vm_compute; lia..].
Defined.

(** ** The permission test on stderr *)

Lemma contains_unfold (needle hay : string) :
  contains needle hay
  = String.prefix needle hay ||
    match hay with
    | EmptyString => false
    | String _ hay' => contains needle hay'
    end.
Proof. by destruct hay. Qed.

Lemma prefix_nil (h : string) : String.prefix "" h = true.
Proof. by destruct h. Qed.

Lemma prefix_append (n r : string) : String.prefix n (n +:+ r) = true.
Proof.
  induction n as [|c n IH]; [apply prefix_nil|].
  change (String c n +:+ r) with (String c (n +:+ r)). simpl.
  by destruct (ascii_dec c c).
Qed.

Lemma prefix_inv (n h : string) : String.prefix n h = true -> exists r, h = n +:+ r.
Proof.
  revert h. induction n as [|c n IH]; intros h.
  - intros _. by exists h.
  - destruct h as [|d h]; [discriminate|]. simpl.
    destruct (ascii_dec c d) as [->|]; [|discriminate].
    intros [r ->]%IH. by exists r.
Qed.

Lemma contains_intro (a n b : string) : contains n (a +:+ n +:+ b) = true.
Proof.
  induction a as [|c a IH].
  - change ("" +:+ n +:+ b) with (n +:+ b).
    by rewrite contains_unfold, prefix_append.
  - change (String c a +:+ n +:+ b) with (String c (a +:+ n +:+ b)).
    rewrite contains_unfold, IH. apply orb_true_r.
Qed.

Lemma contains_inv (n h : string) :
  contains n h = true -> exists a b, h = a +:+ n +:+ b.
Proof.
  induction h as [|c h IH]; rewrite contains_unfold.
  - rewrite orb_false_r. intros [r ->]%prefix_inv. by exists "", r.
  - intros [Hp|Hc]%orb_true_iff.
    + apply prefix_inv in Hp as [r ->]. by exists "", r.
    + destruct (IH Hc) as (a & b & ->). by exists (String c a), b.
Qed.

Lemma contains_trans (a b c : string) :
  contains a b = true -> contains b c = true -> contains a c = true.
Proof.
  intros (x & y & ->)%contains_inv (u & v & ->)%contains_inv.
  replace (u +:+ (x +:+ a +:+ y) +:+ v) with ((u +:+ x) +:+ a +:+ (y +:+ v))
    by (by rewrite !append_assoc).
  apply contains_intro.
Qed.

(** X6. The second permission test never decides: a text that contains
    "you don't have permission" contains "permission", so the probe rejects
    a completed run on permission grounds exactly when its lower-cased
    stderr contains "permission". *)
Theorem permission_test_is_one_word (stderr : string) :
  mentions_permission stderr = contains "permission" stderr /\
  (forall rc out err,
     (probe_classify (Completed rc out err) = (false, strip err) /\
      contains "permission" (lower err) = true) \/
     (contains "permission" (lower err) = false /\
      probe_classify (Completed rc out err)
      = if negb (rc =? 0)%Z && truthy err then (false, strip err) else (true, ""))).
Proof.
  assert (Hm : forall s, mentions_permission s = contains "permission" s).
  { intros s. unfold mentions_permission.
    destruct (contains "permission" s) eqn:Hp; [reflexivity|]. simpl.
    destruct (contains "you don't have permission" s) eqn:Hy; [|reflexivity].
    rewrite <- Hp. symmetry.
    by apply (contains_trans "permission" "you don't have permission" s). }
  split; [apply Hm|]. intros rc out err. simpl. rewrite Hm, lower_truthy.
  destruct (contains "permission" (lower err)); [left|right]; done.
Qed.

(** ** Choosing a UE *)

Lemma select_loop_rejected (ue_list : list (string * string)) (answer : user_input)
    (rest : list user_input) :
  rejected ue_list answer = true ->
  select_loop ue_list (answer :: rest)
  = (complaint ue_list answer ++ (select_loop ue_list rest).1,
     (select_loop ue_list rest).2).
Proof.
  destruct answer as [|idx| |]; simpl; try discriminate.
  - intros H. apply negb_true_iff in H. rewrite H.
    by destruct (select_loop ue_list rest).
  - intros _. by destruct (select_loop ue_list rest).
Qed.

(** X7. Rejected answers never end the selection and never choose a UE:
    each costs one prompt and one complaint, and the outcome is that of the
    answers that follow. *)
Theorem rejected_answers_reprompt (ue_list : list (string * string))
    (bad rest : list user_input) :
  Forall (fun answer => rejected ue_list answer = true) bad ->
  select_loop ue_list (bad ++ rest)
  = ((bad ≫= complaint ue_list) ++ (select_loop ue_list rest).1,
     (select_loop ue_list rest).2).
Proof.
  induction 1 as [|answer bad Hrej _ IH].
  - simpl. by destruct (select_loop ue_list rest).
  - change ((answer :: bad) ++ rest) with (answer :: (bad ++ rest)).
    rewrite (select_loop_rejected _ _ _ Hrej), IH. cbn [fst snd].
    change ((answer :: bad) ≫= complaint ue_list)
      with (complaint ue_list answer ++ (bad ≫= complaint ue_list)).
    by rewrite <- app_assoc.
Qed.

Lemma rejected_answers_reprompt_witness :
  select_loop [("val0000000001", "10.61.0.1"); ("val0000000002", "10.61.0.2")]
    [NotANumber; Number 0; Number 3; Number 2]
  = ([Prompt select_prompt; Print "Invalid input. Please enter a number.";
      Prompt select_prompt; Print "Please enter a number between 1 and 2";
      Prompt select_prompt; Print "Please enter a number between 1 and 2";
      Prompt select_prompt],
     inr ("val0000000002", "10.61.0.2")).
Proof.
  etrans.
  - apply (rejected_answers_reprompt
             [("val0000000001", "10.61.0.1"); ("val0000000002", "10.61.0.2")]
             [NotANumber; Number 0; Number 3] [Number 2]).
    repeat constructor.
  - reflexivity.
Defined.

Lemma select_loop_result (ue_list : list (string * string)) (answers : list user_input) :
  match (select_loop ue_list answers).2 with
  | inl status => status = 0%Z
  | inr ue =>
      exists idx, Number idx ∈ answers /\
                  (1 <= idx <= Z.of_nat (length ue_list))%Z /\
                  ue_list !! Z.to_nat (idx - 1) = Some ue
  end.
Proof.
  induction answers as [|answer answers IH]; [reflexivity|].
  destruct answer as [|idx| |]; simpl; try reflexivity.
  - destruct ((1 <=? idx)%Z && (idx <=? Z.of_nat (length ue_list))%Z) eqn:Hrange.
    + apply andb_true_iff in Hrange as [H1%Z.leb_le H2%Z.leb_le].
      destruct (lookup_lt_is_Some_2 ue_list (Z.to_nat (idx - 1))) as [ue Hue]; [lia|].
      rewrite Hue. simpl. exists idx. split; [apply list_elem_of_here|]. split; [lia|done].
    + destruct (select_loop ue_list answers) as [out [status|ue]]; simpl in *; [done|].
      destruct IH as (i & Hi & ?). exists i. split; [by apply list_elem_of_further|done].
  - destruct (select_loop ue_list answers) as [out [status|ue]]; simpl in *; [done|].
    destruct IH as (i & Hi & ?). exists i. split; [by apply list_elem_of_further|done].
Qed.

(** X8. The selection never defaults. It hands back a UE only if the user
    typed its 1-based number, and that UE is the entry of the list at that
    position; otherwise it ends the program, with status 1 when there is no
    active UE to choose from and status 0 when the user quits or input ends. *)
Theorem selection_never_defaults (w : world) :
  match (select_ue_interactive w).2 with
  | inl status =>
      (active_ues w = [] /\ status = 1%Z) \/ (active_ues w ≠ [] /\ status = 0%Z)
  | inr ue =>
      ue ∈ active_ues w /\
      exists idx, Number idx ∈ inputs w /\
                  (1 <= idx <= Z.of_nat (length (active_ues w)))%Z /\
                  active_ues w !! Z.to_nat (idx - 1) = Some ue
  end.
Proof.
  unfold select_ue_interactive.
  destruct (active_ues w) as [|ue0 ues] eqn:Hues; [left; done|].
  pose proof (select_loop_result (ue0 :: ues) (inputs w)) as Hres.
  destruct (select_loop (ue0 :: ues) (inputs w)) as [out [status|ue]]; cbn [snd] in *.
  - right. done.
  - destruct Hres as (idx & Hin & Hrange & Hue). split.
    + apply list_elem_of_lookup. eauto.
    + exists idx. done.
Qed.

(** ** Finding the interface of a source address *)

(** X9. The search for the interface of a source address returns the
    interface of the first active UE whose address is exactly that string,
    and nothing when no active UE has it. *)
Theorem match_iface_first_match (ue_list : list (string * string)) (src_ip : string) :
  match match_iface ue_list src_ip with
  | Some iface =>
      exists before after,
        ue_list = before ++ (iface, src_ip) :: after /\
        Forall (fun ue => ue.2 ≠ src_ip) before
  | None => Forall (fun ue => ue.2 ≠ src_ip) ue_list
  end.
Proof.
  induction ue_list as [|[iface ip] ue_list IH]; simpl; [constructor|].
  destruct (String.eqb_spec ip src_ip) as [->|Hne].
  - exists [], ue_list. split; [reflexivity|constructor].
  - destruct (match_iface ue_list src_ip) as [found|].
    + destruct IH as (before & after & -> & Hbefore).
      exists ((iface, ip) :: before), after. split; [reflexivity|].
      constructor; [exact Hne|exact Hbefore].
    + constructor; [exact Hne|exact IH].
Qed.

(** ** What [main] starts, and when *)

Lemma spawns_app (l k : list event) : spawns (l ++ k) = spawns l ++ spawns k.
Proof. apply omap_app. Qed.

Lemma spawns_prints (l : list string) : spawns (Print <$> l) = [].
Proof. induction l as [|x l IH]; [reflexivity|exact IH]. Qed.

Lemma main_by_target (w : world) (a : args) :
  main w a
  = if negb (check_tshark (run w)) then
      ([Spawn ["tshark"; "--version"];
        Print "Error: tshark is not installed or not in PATH";
        Print "Install with: sudo apt-get install tshark"], 1%Z)
    else
      match target w a with
      | (out, inl status) => (Spawn ["tshark"; "--version"] :: out, status)
      | (out, inr (src_ip, interface)) =>
          (Spawn ["tshark"; "--version"] :: out
             ++ (run_monitoring w a src_ip interface).1,
           (run_monitoring w a src_ip interface).2)
      end.
Proof.
  unfold main, target.
  destruct (check_tshark (run w)); [|reflexivity]. cbn [negb].
  destruct (select a).
  - destruct (select_ue_interactive w) as [out [status|[iface ip]]]; [reflexivity|].
    destruct (truthy (interface a)); cbn [negb];
      destruct (run_monitoring w a ip _); cbn [fst snd app];
      by rewrite <- app_assoc.
  - destruct (src_ip a) as [[|c ip]|]; [reflexivity| |reflexivity].
    destruct (truthy (interface a)); cbn [negb].
    + by destruct (run_monitoring w a (String c ip) (interface a)).
    + destruct (match_iface (active_ues w) (String c ip)) as [[|d m]|].
      * by destruct (run_monitoring w a (String c ip) "any").
      * by destruct (run_monitoring w a (String c ip) (String d m)).
      * by destruct (run_monitoring w a (String c ip) "any").
Qed.

Lemma spawns_imap_prints {A : Type} (f : nat -> A -> event) (l : list A) :
  (forall i x, spawned (f i x) = None) -> spawns (imap f l) = [].
Proof.
  revert f. induction l as [|x l IH]; intros f Hf; [reflexivity|].
  rewrite imap_cons. unfold spawns in *. simpl. rewrite Hf.
  apply IH. intros i y. apply Hf.
Qed.

Lemma spawns_select_loop (ue_list : list (string * string)) (answers : list user_input) :
  spawns (select_loop ue_list answers).1 = [].
Proof.
  induction answers as [|answer answers IH]; [reflexivity|].
  destruct answer as [|idx| |]; simpl; try reflexivity.
  - destruct (_ && _).
    + by destruct (ue_list !! Z.to_nat (idx - 1)).
    + by destruct (select_loop ue_list answers).
  - by destruct (select_loop ue_list answers).
Qed.

Lemma spawns_select_ue (w : world) : spawns (select_ue_interactive w).1 = [].
Proof.
  unfold select_ue_interactive. destruct (active_ues w) as [|ue ues]; [reflexivity|].
  pose proof (spawns_select_loop (ue :: ues) (inputs w)) as Hloop.
  destruct (select_loop (ue :: ues) (inputs w)) as [out r]. cbn [fst] in *.
  rewrite !spawns_app, Hloop, spawns_imap_prints by done. reflexivity.
Qed.

Lemma target_spawns_nothing (w : world) (a : args) : spawns (target w a).1 = [].
Proof.
  unfold target. destruct (select a).
  - pose proof (spawns_select_ue w) as Hsel.
    destruct (select_ue_interactive w) as [out [status|[iface ip]]]; cbn [fst] in *;
      [exact Hsel|]. by rewrite spawns_app, Hsel.
  - destruct (src_ip a) as [[|c ip]|]; try reflexivity.
    destruct (truthy (interface a)); [reflexivity|].
    destruct (match_iface (active_ues w) (String c ip)) as [[|d m]|]; try reflexivity.
    by destruct (debug a).
Qed.

Lemma simple_run_result (popen : list string -> launch) (src_ip interface : string)
    (count_limit : option Z) (debug : bool) :
  spawns (Simple.run_simple_monitor popen src_ip interface count_limit debug).1
  = [["stdbuf"; "-oL"] ++ Simple.tshark_cmd src_ip interface count_limit] /\
  (Simple.run_simple_monitor popen src_ip interface count_limit debug).2
  = match popen (["stdbuf"; "-oL"] ++ Simple.tshark_cmd src_ip interface count_limit) with
    | Stream _ => None
    | Raises e => Some e
    end.
Proof.
  unfold Simple.run_simple_monitor.
  destruct (popen _); cbn [fst snd]; (split; [|reflexivity]);
    rewrite !spawns_app, ?spawns_prints; destruct debug; try reflexivity;
    by destruct (_ =? 0).
Qed.

Lemma tuple_run_result (popen : list string -> launch) (src_ip interface : string)
    (count_limit : option Z) (debug : bool) :
  spawns (FiveTuple.run_5tuple_monitor popen src_ip interface count_limit debug).1
  = [["stdbuf"; "-oL"] ++ FiveTuple.tshark_cmd src_ip interface count_limit] /\
  (FiveTuple.run_5tuple_monitor popen src_ip interface count_limit debug).2
  = match popen (["stdbuf"; "-oL"] ++ FiveTuple.tshark_cmd src_ip interface count_limit) with
    | Stream _ => None
    | Raises e => Some e
    end.
Proof.
  unfold FiveTuple.run_5tuple_monitor.
  destruct (popen _); cbn [fst snd]; (split; [|reflexivity]);
    rewrite !spawns_app, ?spawns_prints; destruct debug; try reflexivity;
    by destruct (_ =? 0).
Qed.

Lemma run_monitoring_result (w : world) (a : args) (ip iface : string) :
  spawns (run_monitoring w a ip iface).1 = monitoring_cmds w a ip iface /\
  (run_monitoring w a ip iface).2
  = if (probe_capture_permissions (run w) iface).1
    then match popen w (capture_cmd a ip iface) with
         | Stream _ => 0%Z
         | Raises _ => 1%Z
         end
    else 1%Z.
Proof.
  unfold run_monitoring, monitoring_cmds, capture_cmd.
  destruct (probe_capture_permissions (run w) iface) as [[|] msg]; cbn [negb fst].
  - destruct (five_tuple a).
    + destruct (tuple_run_result (popen w) ip iface (count a) (debug a)) as [Hs Hr].
      destruct (FiveTuple.run_5tuple_monitor _ _ _ _ _) as [out raised].
      cbn [fst snd] in *. subst raised.
      destruct (popen w _) as [lines|[e|e]]; cbn [fst snd];
        rewrite !spawns_app, Hs; by destruct (negb (euid w =? 0)%Z).
    + destruct (simple_run_result (popen w) ip iface (count a) (debug a)) as [Hs Hr].
      destruct (Simple.run_simple_monitor _ _ _ _ _) as [out raised].
      cbn [fst snd] in *. subst raised.
      destruct (popen w _) as [lines|[e|e]]; cbn [fst snd];
        rewrite !spawns_app, Hs; by destruct (negb (euid w =? 0)%Z).
  - cbn [fst snd]. rewrite !spawns_app.
    by destruct (negb (euid w =? 0)%Z), (truthy msg).
Qed.

Lemma main_spawns (w : world) (a : args) :
  check_tshark (run w) = true ->
  spawns (main w a).1
  = ["tshark"; "--version"]
      :: match (target w a).2 with
         | inl _ => []
         | inr (ip, iface) => monitoring_cmds w a ip iface
         end /\
  (main w a).2
  = match (target w a).2 with
    | inl status => status
    | inr (ip, iface) => (run_monitoring w a ip iface).2
    end.
Proof.
  intros Hcheck. rewrite main_by_target, Hcheck. cbn [negb].
  pose proof (target_spawns_nothing w a) as Ht.
  destruct (target w a) as [out [status|[ip iface]]]; cbn [fst snd] in *.
  - change (spawns (Spawn ["tshark"; "--version"] :: out))
      with (["tshark"; "--version"] :: spawns out). by rewrite Ht.
  - change (spawns (Spawn ["tshark"; "--version"] :: out ++ (run_monitoring w a ip iface).1))
      with (["tshark"; "--version"] :: spawns (out ++ (run_monitoring w a ip iface).1)).
    rewrite spawns_app, Ht. cbn [app].
    by rewrite (proj1 (run_monitoring_result w a ip iface)).
Qed.



(** X10. [main] starts tshark at most three times, in a fixed order: the
    version check, then the probe of one interface, then the live capture
    on that same interface; the capture is started only when that probe
    answered ok, and when it did not the exit status is 1. When the version
    check fails nothing else is started and the exit status is 1. *)
Theorem tshark_start_order (w : world) (a : args) :
  let cmds := spawns (main w a).1 in
  (check_tshark (run w) = false ->
     cmds = [["tshark"; "--version"]] /\ (main w a).2 = 1%Z) /\
  (cmds = [["tshark"; "--version"]] \/
   exists ip iface,
     cmds = ["tshark"; "--version"] :: probe_cmd iface
              :: (if (probe_capture_permissions (run w) iface).1
                  then [capture_cmd a ip iface] else []) /\
     ((probe_capture_permissions (run w) iface).1 = false -> (main w a).2 = 1%Z)).
Proof.
  intros cmds. subst cmds.
  destruct (check_tshark (run w)) eqn:Hcheck.
  - split; [discriminate|].
    destruct (main_spawns w a Hcheck) as [Hs Hst]. rewrite Hs, Hst.
    destruct (target w a).2 as [status|[ip iface]]; [by left|].
    right. exists ip, iface. split; [reflexivity|].
    intros Hbad. by rewrite (proj2 (run_monitoring_result w a ip iface)), Hbad.
  - assert (Hm : main w a
      = ([Spawn ["tshark"; "--version"];
          Print "Error: tshark is not installed or not in PATH";
          Print "Install with: sudo apt-get install tshark"], 1%Z)).
    { by rewrite main_by_target, Hcheck. }
    rewrite Hm. split; [done|by left].
Qed.

(** X11. Which interface is probed and captured, when tshark is available.
    With a source address and an explicit interface, that interface is
    used whatever the UE list says. With a source address and no interface,
    the first active UE holding that address gives the interface. After an
    interactive selection, the filter address is the selected UE's and the
    interface is the explicit one if given, else the selected UE's. *)
Theorem interface_precedence (w : world) (a : args) :
  check_tshark (run w) = true ->
  (forall ip, select a = false -> src_ip a = Some ip -> ip ≠ "" ->
     interface a ≠ "" ->
     spawns (main w a).1
     = ["tshark"; "--version"] :: monitoring_cmds w a ip (interface a)) /\
  (forall ip iface, select a = false -> src_ip a = Some ip -> ip ≠ "" ->
     interface a = "" ->
     match_iface (active_ues w) ip = Some iface -> iface ≠ "" ->
     spawns (main w a).1 = ["tshark"; "--version"] :: monitoring_cmds w a ip iface) /\
  (forall out iface ip, select a = true ->
     select_ue_interactive w = (out, inr (iface, ip)) ->
     spawns (main w a).1
     = ["tshark"; "--version"]
         :: monitoring_cmds w a ip (if truthy (interface a) then interface a else iface)).
Proof.
  intros Hcheck. destruct (main_spawns w a Hcheck) as [-> _].
  unfold target. repeat apply conj.
  - intros ip -> -> Hip Hiface.
    destruct ip as [|c ip]; [done|].
    apply truthy_true in Hiface. by rewrite Hiface.
  - intros ip iface -> -> Hip -> -> Hne.
    destruct ip as [|c ip]; [done|]. cbn [truthy].
    by destruct iface.
  - intros out iface ip -> ->. reflexivity.
Qed.

Lemma interface_precedence_witness :
  spawns (main quiet_host
            {| src_ip := Some "10.61.0.1"; select := false; five_tuple := true;
               simple := true; interface := ""; count := Some 5%Z; debug := true |}).1
  = [["tshark"; "--version"]; probe_cmd "val0000000001";
     ["stdbuf"; "-oL"] ++ FiveTuple.tshark_cmd "10.61.0.1" "val0000000001" (Some 5%Z)].
Proof.
  etrans.
  - apply (proj1 (proj2 (interface_precedence quiet_host _ eq_refl))
             "10.61.0.1" "val0000000001"); try reflexivity; discriminate.
  - reflexivity.
Defined.




(** ** Reading the address of an interface *)

Example search_inet_ip_output :
  search_inet ("5: val0000000001: <POINTOPOINT,NOARP,UP,LOWER_UP> mtu 1400" +:+ nl +:+
               "    inet 10.61.0.1/16 scope global val0000000001" +:+ nl +:+
               "       valid_lft forever preferred_lft forever" +:+ nl)
  = Some "10.61.0.1".
Proof. vm_compute. reflexivity. Qed.

Lemma drop_prefix_spec (pre s r : string) : drop_prefix pre s = Some r -> s = pre +:+ r.
Proof.
  revert s. induction pre as [|c pre IH]; intros s; simpl.
  - by intros [= ->].
  - destruct s as [|d s]; [discriminate|].
    destruct (Ascii.eqb_spec c d) as [->|]; [|discriminate].
    intros ->%IH. reflexivity.
Qed.

Lemma span_spaces (s : string) :
  s = (span is_space s).1 +:+ (span is_space s).2 /\
  all_space (span is_space s).1 = true.
Proof.
  induction s as [|c s [IH1 IH2]]; [by split|]. simpl.
  destruct (is_space c) eqn:Hc; simpl; [|by split].
  change (String c ?a +:+ ?b) with (String c (a +:+ b)).
  rewrite <- IH1, Hc, IH2. by split.
Qed.

Lemma span_digits (s : string) :
  s = (span is_digit s).1 +:+ (span is_digit s).2 /\
  all_digits (span is_digit s).1 = true /\
  starts_with_digit (span is_digit s).2 = false.
Proof.
  induction s as [|c s (IH1 & IH2 & IH3)]; [by repeat split|]. simpl.
  destruct (is_digit c) eqn:Hc; simpl; [|by repeat split].
  change (String c ?a +:+ ?b) with (String c (a +:+ b)).
  rewrite <- IH1, Hc, IH2. by repeat split.
Qed.

Lemma digits1_spec (s d r : string) :
  digits1 s = Some (d, r) ->
  s = d +:+ r /\ digit_run d /\ starts_with_digit r = false.
Proof.
  unfold digits1. destruct (span_digits s) as (Hs & Hd & Hr).
  destruct (span is_digit s) as [[|c d'] r'] eqn:Hspan; [discriminate|].
  intros [= <- <-]. cbn [fst snd] in *. split; [exact Hs|]. by split; [split|].
Qed.

Lemma match_inet_sound (s ip : string) :
  match_inet s = Some ip ->
  exists ws a b c d post,
    s = "inet" +:+ ws +:+ ip +:+ post /\
    ws ≠ "" /\ all_space ws = true /\
    ip = a +:+ "." +:+ b +:+ "." +:+ c +:+ "." +:+ d /\
    digit_run a /\ digit_run b /\ digit_run c /\ digit_run d /\
    starts_with_digit post = false.
Proof.
  unfold match_inet.
  destruct (drop_prefix "inet" s) as [r0|] eqn:H0; [|discriminate].
  apply drop_prefix_spec in H0 as ->.
  destruct (span_spaces r0) as [Hr0 Hws].
  destruct (span is_space r0) as [[|w ws] r1]; [discriminate|]. cbn [fst snd] in *.
  destruct (digits1 r1) as [[a r2]|] eqn:Ha; [|discriminate].
  apply digits1_spec in Ha as (-> & Hda & _). simpl.
  destruct (dot r2) as [r3|] eqn:H3; [|discriminate]. apply drop_prefix_spec in H3 as ->.
  simpl. destruct (digits1 r3) as [[b r4]|] eqn:Hb; [|discriminate].
  apply digits1_spec in Hb as (-> & Hdb & _). simpl.
  destruct (dot r4) as [r5|] eqn:H5; [|discriminate]. apply drop_prefix_spec in H5 as ->.
  simpl. destruct (digits1 r5) as [[c r6]|] eqn:Hc; [|discriminate].
  apply digits1_spec in Hc as (-> & Hdc & _). simpl.
  destruct (dot r6) as [r7|] eqn:H7; [|discriminate]. apply drop_prefix_spec in H7 as ->.
  simpl. destruct (digits1 r7) as [[d post]|] eqn:Hd; [|discriminate].
  apply digits1_spec in Hd as (-> & Hdd & Hpost). simpl.
  intros [= <-]. exists (String w ws), a, b, c, d, post.
  split; [|done]. rewrite Hr0. by rewrite !append_assoc.
Qed.

Lemma search_inet_unfold (s : string) :
  search_inet s
  = match match_inet s with
    | Some ip => Some ip
    | None =>
        match s with
        | EmptyString => None
        | String _ s' => search_inet s'
        end
    end.
Proof. by destruct s. Qed.

Lemma search_inet_sound (s ip : string) :
  search_inet s = Some ip ->
  exists pre ws a b c d post,
    s = pre +:+ "inet" +:+ ws +:+ ip +:+ post /\
    ws ≠ "" /\ all_space ws = true /\
    ip = a +:+ "." +:+ b +:+ "." +:+ c +:+ "." +:+ d /\
    digit_run a /\ digit_run b /\ digit_run c /\ digit_run d /\
    starts_with_digit post = false.
Proof.
  induction s as [|x s IH]; rewrite search_inet_unfold; intros Hfound.
  - destruct (match_inet "") as [ip'|] eqn:Hm; [|discriminate].
    injection Hfound as ->. apply match_inet_sound in Hm as (ws & ? & ? & ? & ? & ? & ?).
    exists "", ws. eauto 10.
  - destruct (match_inet (String x s)) as [ip'|] eqn:Hm.
    + injection Hfound as ->.
      apply match_inet_sound in Hm as (ws & ? & ? & ? & ? & ? & ?).
      exists "", ws. eauto 10.
    + destruct (IH Hfound) as (pre & ws & a & b & c & d & post & -> & ?).
      exists (String x pre), ws, a, b, c, d, post. by split.
Qed.

Lemma search_inet_nonempty (s ip : string) : search_inet s = Some ip -> ip ≠ "".
Proof.
  intros (_ & _ & a & b & c & d & _ & _ & _ & _ & -> & [Hne _] & _)%search_inet_sound.
  destruct a as [|y a']; [done|]. intros Hempty. discriminate Hempty.
Qed.

(** X14. What [get_interface_ip] hands back. When it returns an address,
    the command completed and its output holds the word "inet", then white
    space, then that address, which is four non-empty runs of digits joined
    by dots, as long as the digits go: never an empty string, never a prefix
    length or a name. When the command cannot be run, times out or fails
    with any error, there is no address. *)
Theorem interface_ip_shape (run : list string -> run_outcome) (iface ip : string) :
  get_interface_ip run iface = Some ip ->
  exists rc stdout stderr pre ws a b c d post,
    run ["ip"; "-4"; "addr"; "show"; iface] = Completed rc stdout stderr /\
    stdout = pre +:+ "inet" +:+ ws +:+ ip +:+ post /\
    ws ≠ "" /\ all_space ws = true /\
    ip = a +:+ "." +:+ b +:+ "." +:+ c +:+ "." +:+ d /\
    digit_run a /\ digit_run b /\ digit_run c /\ digit_run d /\
    starts_with_digit post = false /\
    ip ≠ "".
Proof.
  unfold get_interface_ip.
  destruct (run _) as [rc stdout stderr| | |]; try discriminate.
  intros Hfound. exists rc, stdout, stderr.
  pose proof (search_inet_nonempty _ _ Hfound) as Hne.
  destruct (search_inet_sound _ _ Hfound)
    as (pre & ws & a & b & c & d & post & H1 & H2 & H3 & H4 & Ha & Hb & Hc & Hd & Hpost).
  exists pre, ws, a, b, c, d, post.
  split; [reflexivity|]. repeat (split; [assumption|]). exact Hne.
Qed.

Lemma interface_ip_shape_witness :
  exists rc stdout stderr pre ws a b c d post,
    Completed 0 ("    inet 10.61.0.1/16 scope global val0000000001" +:+ nl) ""
    = Completed rc stdout stderr /\
    stdout = pre +:+ "inet" +:+ ws +:+ "10.61.0.1" +:+ post /\
    ws ≠ "" /\ all_space ws = true /\
    "10.61.0.1" = a +:+ "." +:+ b +:+ "." +:+ c +:+ "." +:+ d /\
    digit_run a /\ digit_run b /\ digit_run c /\ digit_run d /\
    starts_with_digit post = false /\
    "10.61.0.1" ≠ "".
Proof.
  apply (interface_ip_shape
           (fun _ => Completed 0 ("    inet 10.61.0.1/16 scope global val0000000001" +:+ nl) "")
           "val0000000001" "10.61.0.1").
  vm_compute. reflexivity.
Defined.

(** ** The list of active UEs *)

Lemma active_ue_lookup (run : list string -> run_outcome) (iface : string) :
  match get_interface_ip run iface with
  | Some ip => if truthy ip then Some (iface, ip) else None
  | None => None
  end
  = (fun ip => (iface, ip)) <$> get_interface_ip run iface.
Proof.
  destruct (get_interface_ip run iface) as [ip|] eqn:Hip; [|reflexivity].
  assert (Hne : ip ≠ "").
  { unfold get_interface_ip in Hip. destruct (run _); try discriminate.
    by apply search_inet_nonempty in Hip. }
  apply truthy_true in Hne. by rewrite Hne.
Qed.

Lemma active_ues_sublist (run : list string -> run_outcome) (ifaces : list string) :
  (list_active_ues run ifaces).*1 `sublist_of` ifaces.
Proof.
  unfold list_active_ues. induction ifaces as [|iface ifaces IH]; [constructor|].
  cbn [omap list_omap]. rewrite active_ue_lookup.
  destruct (get_interface_ip run iface); cbn [fmap option_fmap option_map].
  - rewrite fmap_cons. by apply sublist_skip.
  - by apply sublist_cons.
Qed.

(** X15. The list of active UEs holds exactly the detected interfaces for
    which an address was read, each once per occurrence and in the order of
    detection, paired with that address; the address is never empty, so the
    test [if ip] drops no interface that has one; an interface whose
    address cannot be read is left out. *)
Theorem active_ues_are_the_addressed
    (run : list string -> run_outcome) (ifaces : list string) :
  (forall iface ip,
     (iface, ip) ∈ list_active_ues run ifaces <->
     iface ∈ ifaces /\ get_interface_ip run iface = Some ip) /\
  (list_active_ues run ifaces).*1 `sublist_of` ifaces /\
  Forall (fun ue => ue.2 ≠ "") (list_active_ues run ifaces).
Proof.
  assert (Hin : forall iface ip,
     (iface, ip) ∈ list_active_ues run ifaces <->
     iface ∈ ifaces /\ get_interface_ip run iface = Some ip).
  { intros iface ip. unfold list_active_ues. rewrite list_elem_of_omap. split.
    - intros (x & Hx & Hf). rewrite active_ue_lookup in Hf.
      destruct (get_interface_ip run x) as [ip'|] eqn:Hip; [|discriminate].
      injection Hf as <- <-. done.
    - intros [Hi Hip]. exists iface. split; [exact Hi|].
      by rewrite active_ue_lookup, Hip. }
  split; [exact Hin|]. split; [apply active_ues_sublist|].
  - apply Forall_forall. intros [iface ip] [_ Hip]%Hin. cbn [snd].
    unfold get_interface_ip in Hip. destruct (run _); try discriminate.
    by apply search_inet_nonempty in Hip.
Qed.

Lemma active_ues_are_the_addressed_witness :
  ("val0000000001", "10.61.0.1")
    ∈ list_active_ues
        (fun cmd => if bool_decide (cmd = ["ip"; "-4"; "addr"; "show"; "val0000000001"])
                    then Completed 0 ("    inet 10.61.0.1/16 scope global" +:+ nl) ""
                    else TimeoutExpired)
        ["val0000000001"; "val0000000002"].
Proof.
  apply (proj1 (active_ues_are_the_addressed _ _)). split.
  - in_list.
  - vm_compute. reflexivity.
Defined.

(** ** The order of detection *)

Lemma sublist_strongly_sorted {A : Type} (R : relation A) (l k : list A) :
  l `sublist_of` k -> StronglySorted R k -> StronglySorted R l.
Proof.
  induction 1 as [|x l k Hsub IH|x l k Hsub IH]; [done| |].
  - rewrite !StronglySorted_cons. intros [Hall Hk]. split; [|by apply IH].
    rewrite Forall_forall in Hall. apply Forall_forall. intros y Hy.
    apply Hall. by eapply elem_of_sublist.
  - rewrite StronglySorted_cons. intros [_ Hk]. by apply IH.
Qed.

Lemma split_fields_have_no_separator (sep : ascii) (s : string) :
  Forall (fun field => count_char sep field = 0) (split sep s).
Proof.
  induction s as [|c s IH]; simpl; [by repeat constructor|].
  destruct (Ascii.eqb c sep) eqn:Hc; [by constructor|].
  destruct (split sep s) as [|h t]; simpl.
  - repeat constructor. simpl. by rewrite Hc.
  - inversion IH as [|? ? Hh Ht]; subst. constructor; [|exact Ht].
    simpl. by rewrite Hc, Hh.
Qed.

Lemma basename_has_no_slash (path : string) : count_char "/" (basename path) = 0.
Proof.
  unfold basename. pose proof (split_fields_have_no_separator "/" path) as Hall.
  induction (split "/" path) as [|h [|h' t] IH]; [reflexivity| |].
  - by inversion Hall.
  - apply IH. by inversion Hall.
Qed.

Lemma strongly_sorted_lookup {A : Type} (R : relation A) (l : list A)
    (i j : nat) (x y : A) :
  StronglySorted R l -> i < j -> l !! i = Some x -> l !! j = Some y -> R x y.
Proof.
  intros Hl. revert i j. induction Hl as [|z l Hl IH Hall]; intros i j Hij Hi Hj.
  - by rewrite lookup_nil in Hi.
  - destruct j as [|j]; [lia|]. destruct i as [|i]; simpl in *.
    + injection Hi as ->. by eapply Forall_lookup_1.
    + apply (IH i j); [lia|done..].
Qed.

Lemma menu_line_at (w : world) (k : nat) (ue : string * string) :
  active_ues w !! k = Some ue ->
  (select_ue_interactive w).1 !! (3 + k) = Some (menu_line k ue).
Proof.
  unfold select_ue_interactive.
  destruct (active_ues w) as [|ue0 ues]; intros Hk; [by rewrite lookup_nil in Hk|].
  set (ue_list := ue0 :: ues) in *.
  pose proof (lookup_lt_Some _ _ _ Hk) as Hlt.
  destruct (select_loop ue_list (inputs w)) as [out r]. cbn [fst].
  rewrite lookup_app_r by (simpl; lia).
  match goal with
  | |- context [3 + k - length ?l] => replace (3 + k - length l) with k by (simpl; lia)
  end.
  rewrite lookup_app_l by (rewrite length_imap; exact Hlt).
  by rewrite list_lookup_imap, Hk.
Qed.

(** X16. The detected interfaces are the names after the last slash of the
    paths found, in ascending order by code points, whatever order and
    repetition the paths came in: it is the one ascending arrangement of
    those names. No name contains a slash, and the active UEs come in the
    same ascending order of interface name. So on a host whose active UEs
    are the ones read from the detected interfaces, the selection menu is in
    ascending order: of two menu lines, the earlier one shows the smaller
    (or equal) interface name. *)
Theorem detection_is_sorted (paths : list string) (run : list string -> run_outcome) :
  let ifaces := detect_val_interfaces paths in
  StronglySorted String.le ifaces /\
  ifaces ≡ₚ basename <$> paths /\
  (forall l, StronglySorted String.le l -> l ≡ₚ basename <$> paths -> l = ifaces) /\
  Forall (fun name => count_char "/" name = 0) ifaces /\
  StronglySorted String.le (list_active_ues run ifaces).*1 /\
  (forall w i j ue_i ue_j,
     active_ues w = list_active_ues run ifaces ->
     i < j ->
     active_ues w !! i = Some ue_i ->
     active_ues w !! j = Some ue_j ->
     (select_ue_interactive w).1 !! (3 + i) = Some (menu_line i ue_i) /\
     (select_ue_interactive w).1 !! (3 + j) = Some (menu_line j ue_j) /\
     String.le ue_i.1 ue_j.1).
Proof.
  intros ifaces. subst ifaces. unfold detect_val_interfaces.
  assert (Hs : StronglySorted String.le (merge_sort String.le (basename <$> paths)))
    by apply (StronglySorted_merge_sort _).
  assert (Hp : merge_sort String.le (basename <$> paths) ≡ₚ basename <$> paths)
    by apply merge_sort_Permutation.
  assert (Hactive : StronglySorted String.le
            (list_active_ues run (merge_sort String.le (basename <$> paths))).*1).
  { eapply sublist_strongly_sorted; [apply active_ues_sublist|exact Hs]. }
  split; [exact Hs|]. split; [exact Hp|]. split; [|split; [|split]].
  - intros l Hl Hperm. apply (StronglySorted_unique String.le); [done..|].
    by rewrite Hp.
  - rewrite Hp. apply Forall_fmap, Forall_forall. intros path _.
    apply basename_has_no_slash.
  - exact Hactive.
  - intros w i j ue_i ue_j Hw Hij Hi Hj.
    split; [by apply menu_line_at|]. split; [by apply menu_line_at|].
    rewrite <- Hw in Hactive.
    apply (strongly_sorted_lookup String.le (active_ues w).*1 i j); [done..| |];
      by rewrite list_lookup_fmap, ?Hi, ?Hj.
Qed.

Lemma detection_is_sorted_witness :
  detect_val_interfaces
    ["/sys/class/net/val0000000010"; "/sys/class/net/val0000000002";
     "/sys/class/net/val0000000001"]
  = ["val0000000001"; "val0000000002"; "val0000000010"] /\
  String.le "val0000000002" "val0000000010".
Proof.
  split.
  - symmetry.
    apply (proj1 (proj2 (proj2 (detection_is_sorted
      ["/sys/class/net/val0000000010"; "/sys/class/net/val0000000002";
       "/sys/class/net/val0000000001"] (fun _ => TimeoutExpired))))).
    + repeat constructor.
    + vm_compute. apply Permutation_sym.
      etrans; [apply perm_swap|]. etrans; [apply perm_skip, perm_swap|]. apply perm_swap.
  - pose proof (detection_is_sorted
      ["/sys/class/net/val0000000010"; "/sys/class/net/val0000000002";
       "/sys/class/net/val0000000001"]
      (fun cmd => Completed 0 ("    inet 10.61.0.1/16 scope global" +:+ nl) ""))
      as (_ & _ & _ & _ & _ & Hmenu).
    apply (Hmenu
      {| run := fun _ => TimeoutExpired; popen := fun _ => Stream [];
         active_ues := [("val0000000001", "10.61.0.1"); ("val0000000002", "10.61.0.1");
                        ("val0000000010", "10.61.0.1")];
         inputs := []; euid := 0; argv := [] |}
      1 2 ("val0000000002", "10.61.0.1") ("val0000000010", "10.61.0.1"));
      [vm_compute; reflexivity|lia|reflexivity|reflexivity].
Defined.

(** ** Decoded fields and the separator *)

Lemma lookup_total_no_separator (parts : list string) (i : nat) :
  Forall (fun field => count_char "|" field = 0) parts ->
  count_char "|" (parts !!! i) = 0.
Proof.
  intros Hall. destruct (decide (i < length parts)) as [Hi|Hi].
  - rewrite Forall_forall in Hall. apply Hall, list_elem_of_lookup_total_2. exact Hi.
  - by rewrite lookup_total_past_end by lia.
Qed.

Lemma proto_num_at_no_separator (parts : list string) (i : nat) :
  Forall (fun field => count_char "|" field = 0) parts ->
  count_char "|" (proto_num_at i parts) = 0.
Proof.
  intros Hall. rewrite proto_num_at_eq.
  destruct (truthy (parts !!! i)); by apply lookup_total_no_separator.
Qed.

(** X17. No resolved address, port or protocol number contains the
    separator: whatever the line, every value the loop passes on to the
    formatter is free of "|". *)
Theorem resolved_values_have_no_separator (line : string) :
  (forall f, Simple.resolve line = Some f ->
     count_char "|" (Simple.src f) = 0 /\ count_char "|" (Simple.dst f) = 0 /\
     count_char "|" (Simple.proto_num f) = 0) /\
  (forall f, FiveTuple.resolve line = Some f ->
     count_char "|" (FiveTuple.src f) = 0 /\ count_char "|" (FiveTuple.src_port f) = 0 /\
     count_char "|" (FiveTuple.dst f) = 0 /\ count_char "|" (FiveTuple.dst_port f) = 0 /\
     count_char "|" (FiveTuple.proto_num f) = 0).
Proof.
  pose proof (split_fields_have_no_separator "|" (strip line)) as Hall.
  split; intros f Hf.
  - destruct (simple_resolve_inv line f Hf) as (_ & -> & -> & -> & _).
    repeat split; try (by apply proto_num_at_no_separator);
      match goal with |- context [truthy ?x] => destruct (truthy x) end;
      by apply lookup_total_no_separator.
  - destruct (tuple_resolve_inv line f Hf) as (_ & -> & -> & -> & -> & -> & _).
    repeat split; try (by apply proto_num_at_no_separator);
      match goal with |- context [truthy ?x] => destruct (truthy x) end;
      by apply lookup_total_no_separator.
Qed.

Lemma resolved_values_have_no_separator_witness :
  exists f, Simple.resolve "10.0.0.1||10.0.0.2||6|" = Some f /\
            count_char "|" (Simple.src f) = 0.
Proof.
  eexists. split; [vm_compute; reflexivity|].
  apply (proj1 (resolved_values_have_no_separator "10.0.0.1||10.0.0.2||6|")).
  vm_compute. reflexivity.
Defined.

(** ** Lines as tshark writes them *)

Lemma split_plain (sep : ascii) (s : string) :
  count_char sep s = 0 -> split sep s = [s].
Proof.
  induction s as [|c s IH]; [reflexivity|]. simpl.
  destruct (Ascii.eqb c sep); [discriminate|]. intros H. by rewrite (IH H).
Qed.

Lemma split_field_then (sep : ascii) (a r : string) :
  count_char sep a = 0 ->
  split sep (a +:+ String sep EmptyString +:+ r) = a :: split sep r.
Proof.
  change (String sep EmptyString +:+ r) with (String sep r).
  induction a as [|c a IH].
  - intros _. change ("" +:+ String sep r) with (String sep r). simpl.
    by rewrite Ascii.eqb_refl.
  - change (String c a +:+ String sep r) with (String c (a +:+ String sep r)). simpl.
    destruct (Ascii.eqb c sep); [discriminate|]. intros H. by rewrite (IH H).
Qed.

Lemma no_space_append (a b : string) :
  no_space (a +:+ b) = no_space a && no_space b.
Proof.
  induction a as [|c a IH]; [reflexivity|].
  change (String c a +:+ b) with (String c (a +:+ b)). simpl.
  by rewrite IH, andb_assoc.
Qed.

Lemma strip_no_space (s : string) : no_space s = true -> strip s = s.
Proof.
  intros Hs. unfold strip.
  assert (Hl : lstrip s = s).
  { destruct s as [|c s]; [reflexivity|]. simpl in *.
    apply andb_true_iff in Hs as [Hc _]. apply negb_true_iff in Hc. by rewrite Hc. }
  rewrite Hl. clear Hl. induction s as [|c s IH]; [reflexivity|]. simpl in *.
  apply andb_true_iff in Hs as [Hc Hs]. apply negb_true_iff in Hc.
  rewrite (IH Hs), Hc. by destruct s.
Qed.

Lemma truthy_append_sep (a r : string) : truthy (a +:+ "|" +:+ r) = true.
Proof. by destruct a. Qed.

Lemma split_join_6 (a b c d e f : string) :
  count_char "|" a = 0 -> count_char "|" b = 0 -> count_char "|" c = 0 ->
  count_char "|" d = 0 -> count_char "|" e = 0 -> count_char "|" f = 0 ->
  split "|" (join "|" [a; b; c; d; e; f]) = [a; b; c; d; e; f].
Proof.
  intros. cbn [join].
  rewrite !split_field_then by assumption. by rewrite split_plain.
Qed.

Lemma split_join_10 (a b c d e f g h i j : string) :
  count_char "|" a = 0 -> count_char "|" b = 0 -> count_char "|" c = 0 ->
  count_char "|" d = 0 -> count_char "|" e = 0 -> count_char "|" f = 0 ->
  count_char "|" g = 0 -> count_char "|" h = 0 -> count_char "|" i = 0 ->
  count_char "|" j = 0 ->
  split "|" (join "|" [a; b; c; d; e; f; g; h; i; j]) = [a; b; c; d; e; f; g; h; i; j].
Proof.
  intros. cbn [join].
  rewrite !split_field_then by assumption. by rewrite split_plain.
Qed.

Lemma no_space_join (l : list string) :
  Forall (fun s => no_space s = true) l -> no_space (join "|" l) = true.
Proof.
  induction 1 as [|x l Hx Hl IH]; [reflexivity|].
  destruct l as [|y l]; [exact Hx|].
  change (join "|" (x :: y :: l)) with (x +:+ "|" +:+ join "|" (y :: l)).
  rewrite !no_space_append, Hx, IH. reflexivity.
Qed.

(** X18. A line as tshark writes it in simple mode, six fields joined by
    "|" (each free of "|" and of white space, any of them empty), followed
    by any white space such as the line end, resolves to the first
    non-empty of each IPv4/IPv6 pair, with the protocol mapped to its
    label; it is counted and printed exactly when both resolved addresses
    are non-empty. *)
Theorem simple_line_contract (v4src v6src v4dst v6dst v4proto v6next ending : string) :
  plain_field v4src -> plain_field v6src -> plain_field v4dst ->
  plain_field v6dst -> plain_field v4proto -> plain_field v6next ->
  all_space ending = true ->
  let line := join "|" [v4src; v6src; v4dst; v6dst; v4proto; v6next] +:+ ending in
  let f := {| Simple.src := if truthy v4src then v4src else v6src;
              Simple.dst := if truthy v4dst then v4dst else v6dst;
              Simple.proto_num := if truthy v4proto then v4proto else v6next;
              Simple.protocol :=
                map_protocol (if truthy v4proto then v4proto else v6next) |} in
  Simple.resolve line = Some f /\
  Simple.decode line
  = (if truthy (Simple.src f) && truthy (Simple.dst f) then Some f else None).
Proof.
  intros [Ha1 Ha2] [Hb1 Hb2] [Hc1 Hc2] [Hd1 Hd2] [He1 He2] [Hf1 Hf2] Hend line f.
  assert (Hstrip : strip line = join "|" [v4src; v6src; v4dst; v6dst; v4proto; v6next]).
  { subst line. rewrite strip_app_space by exact Hend.
    apply strip_no_space, no_space_join. by repeat constructor. }
  assert (Hr : Simple.resolve line = Some f).
  { unfold Simple.resolve. rewrite Hstrip, split_join_6 by assumption.
    cbn [join]. rewrite truthy_append_sep. reflexivity. }
  split; [exact Hr|]. unfold Simple.decode. by rewrite Hr.
Qed.

Lemma simple_line_contract_witness :
  Simple.decode ("|fe80::1||ff02::2||58" +:+ nl)
  = Some {| Simple.src := "fe80::1"; Simple.dst := "ff02::2";
            Simple.proto_num := "58"; Simple.protocol := "ICMPv6" |}.
Proof.
  etrans.
  - apply (simple_line_contract "" "fe80::1" "" "ff02::2" "" "58" nl);
      (split; reflexivity) || reflexivity.
  - vm_compute. reflexivity.
Defined.

(** X19. The same in 5-tuple mode: ten such fields resolve to the first
    non-empty of each IPv4/IPv6 and TCP/UDP pair, with the protocol mapped
    to its label; the line is counted and printed exactly when both
    resolved addresses are non-empty, whatever the ports. *)
Theorem tuple_line_contract
    (v4src v6src tcpsrc udpsrc v4dst v6dst tcpdst udpdst v4proto v6next ending : string) :
  plain_field v4src -> plain_field v6src -> plain_field tcpsrc -> plain_field udpsrc ->
  plain_field v4dst -> plain_field v6dst -> plain_field tcpdst -> plain_field udpdst ->
  plain_field v4proto -> plain_field v6next ->
  all_space ending = true ->
  let line := join "|" [v4src; v6src; tcpsrc; udpsrc; v4dst; v6dst; tcpdst; udpdst;
                        v4proto; v6next] +:+ ending in
  let f := {| FiveTuple.src := if truthy v4src then v4src else v6src;
              FiveTuple.src_port := if truthy tcpsrc then tcpsrc else udpsrc;
              FiveTuple.dst := if truthy v4dst then v4dst else v6dst;
              FiveTuple.dst_port := if truthy tcpdst then tcpdst else udpdst;
              FiveTuple.proto_num := if truthy v4proto then v4proto else v6next;
              FiveTuple.protocol :=
                map_protocol (if truthy v4proto then v4proto else v6next) |} in
  FiveTuple.resolve line = Some f /\
  FiveTuple.decode line
  = (if truthy (FiveTuple.src f) && truthy (FiveTuple.dst f) then Some f else None).
Proof.
  intros [Ha1 Ha2] [Hb1 Hb2] [Hc1 Hc2] [Hd1 Hd2] [He1 He2] [Hf1 Hf2]
    [Hg1 Hg2] [Hh1 Hh2] [Hi1 Hi2] [Hj1 Hj2] Hend line f.
  assert (Hstrip : strip line
    = join "|" [v4src; v6src; tcpsrc; udpsrc; v4dst; v6dst; tcpdst; udpdst;
                v4proto; v6next]).
  { subst line. rewrite strip_app_space by exact Hend.
    apply strip_no_space, no_space_join. by repeat constructor. }
  assert (Hr : FiveTuple.resolve line = Some f).
  { unfold FiveTuple.resolve. rewrite Hstrip, split_join_10 by assumption.
    cbn [join]. rewrite truthy_append_sep. reflexivity. }
  split; [exact Hr|]. unfold FiveTuple.decode. by rewrite Hr.
Qed.

Lemma tuple_line_contract_witness :
  FiveTuple.decode ("10.61.0.1|||40000|8.8.8.8|||53|17|" +:+ nl)
  = Some {| FiveTuple.src := "10.61.0.1"; FiveTuple.src_port := "40000";
            FiveTuple.dst := "8.8.8.8"; FiveTuple.dst_port := "53";
            FiveTuple.proto_num := "17"; FiveTuple.protocol := "UDP" |}.
Proof.
  etrans.
  - apply (tuple_line_contract "10.61.0.1" "" "" "40000" "8.8.8.8" "" "" "53" "17" "" nl);
      (split; reflexivity) || reflexivity.
  - vm_compute. reflexivity.
Defined.

(** ** The debug flag *)



(** ** The menu and the choice *)

Lemma select_loop_accepts (ue_list : list (string * string)) (idx : Z)
    (rest : list user_input) (ue : string * string) :
  (1 <= idx <= Z.of_nat (length ue_list))%Z ->
  ue_list !! Z.to_nat (idx - 1) = Some ue ->
  select_loop ue_list (Number idx :: rest) = ([Prompt select_prompt], inr ue).
Proof.
  intros [H1 H2] Hue. cbn [select_loop].
  destruct (Z.leb_spec 1 idx); [|lia].
  destruct (Z.leb_spec idx (Z.of_nat (length ue_list))); [|lia].
  cbn [andb]. by rewrite Hue.
Qed.

(** X21. The number shown in the menu is the number to type: the UE at
    position k of the list (from 0) is printed on menu line k + 1, right
    after the three heading lines, and answering k + 1 at the first prompt
    selects that UE. *)
Theorem menu_number_selects_its_ue (w : world) (k : nat) (ue : string * string) :
  active_ues w !! k = Some ue ->
  (select_ue_interactive w).1 !! (3 + k) = Some (menu_line k ue) /\
  (forall rest, inputs w = Number (Z.of_nat k + 1) :: rest ->
     (select_ue_interactive w).2 = inr ue).
Proof.
  unfold select_ue_interactive.
  destruct (active_ues w) as [|ue0 ues]; intros Hk; [by rewrite lookup_nil in Hk|].
  set (ue_list := ue0 :: ues) in *.
  pose proof (lookup_lt_Some _ _ _ Hk) as Hlt.
  split.
  - destruct (select_loop ue_list (inputs w)) as [out r]. cbn [fst].
    rewrite lookup_app_r by (simpl; lia).
    match goal with
    | |- context [3 + k - length ?l] => replace (3 + k - length l) with k by (simpl; lia)
    end.
    rewrite lookup_app_l by (rewrite length_imap; exact Hlt).
    by rewrite list_lookup_imap, Hk.
  - intros rest ->.
    rewrite (select_loop_accepts ue_list (Z.of_nat k + 1) rest ue); [reflexivity|lia|].
    replace (Z.to_nat (Z.of_nat k + 1 - 1)) with k by lia. exact Hk.
Qed.

Lemma menu_number_selects_its_ue_witness :
  (select_ue_interactive
     {| run := fun _ => TimeoutExpired; popen := fun _ => Stream [];
        active_ues := [("val0000000001", "10.61.0.1"); ("val0000000002", "10.61.0.2")];
        inputs := [Number 2]; euid := 0; argv := [] |}).1 !! 4
  = Some (Print "  2. val0000000002        IP: 10.61.0.2").
Proof.
  etrans.
  - apply (proj1 (menu_number_selects_its_ue
      {| run := fun _ => TimeoutExpired; popen := fun _ => Stream [];
         active_ues := [("val0000000001", "10.61.0.1"); ("val0000000002", "10.61.0.2")];
         inputs := [Number 2]; euid := 0; argv := [] |}
      1 ("val0000000002", "10.61.0.2") eq_refl)).
  - vm_compute. reflexivity.
Defined.
